(** * Trivia API: a shallow embedding of [backend/flaskr/__init__.py]

    The Flask application is a set of request handlers over a relational
    store with two tables, [categories] and [questions].  Each handler is
    embedded as a computation in a small state-and-exception monad over the
    store: database reads return rows, [abort] and Python run-time errors
    are exceptions, and Flask's dispatcher turns an exception into the
    response of the registered error handler. *)

From Stdlib Require Import ZArith List String Ascii Bool Lia QArith.
Import ListNotations.
Local Open Scope string_scope.
Local Open Scope Z_scope.
Set Warnings "-register-all".

(** ** JSON values, as [request.get_json()] yields them

    Python's [None] is [JNull]; a finite float is a rational; a string is
    a sequence of characters with code points below 256, the first 128
    of them ASCII. *)

Inductive json : Type :=
| JNull
| JBool (b : bool)
| JInt (n : Z)
| JFloat (q : Q)
| JStr (s : string)
| JList (l : list json)
| JDict (d : list (string * json)).

(** [d.get(k, None)]: an absent key and a key bound to [null] both give
    [None]. *)
Fixpoint dict_get (d : list (string * json)) (k : string) : json :=
  match d with
  | [] => JNull
  | (k', v) :: d' => if String.eqb k k' then v else dict_get d' k
  end.

(** [k in d] for a dict. *)
Fixpoint dict_has (d : list (string * json)) (k : string) : bool :=
  match d with
  | [] => false
  | (k', _) :: d' => String.eqb k k' || dict_has d' k
  end.

(** [v is None] *)
Definition is_None (v : json) : bool :=
  match v with JNull => true | _ => false end.

(** [v == s] for a string literal [s] *)
Definition eq_str (v : json) (s : string) : bool :=
  match v with JStr s' => String.eqb s' s | _ => false end.

(** [x == e] for an integer [x] and a JSON value [e]: Python compares
    numbers by value, and [True == 1], [False == 0]. *)
Definition int_eq (x : Z) (e : json) : bool :=
  match e with
  | JInt n => x =? n
  | JBool b => x =? (if b then 1 else 0)
  | JFloat q => Qeq_bool (inject_Z x) q
  | _ => false
  end.

(** ** The store *)

Record Category : Type := mkCategory {
  cat_id : Z;
  cat_type : string
}.

Record Question : Type := mkQuestion {
  q_id : Z;
  q_question : string;
  q_answer : string;
  q_category_id : Z;
  q_difficulty : Z
}.

Record Store : Type := mkStore {
  categories : list Category;
  questions : list Question
}.

(** How an insert fails: the database refuses the row, which SQLAlchemy
    raises as an [SQLAlchemyError] with the text of the database error;
    or the driver refuses a parameter before the database sees it
    (psycopg2's [ValueError] for a string that holds NUL), which
    SQLAlchemy does not wrap. *)
Inductive insert_failure : Type :=
| Refused (orig : string)
| DriverValueError.

(** The keyword arguments of [Question(...)] in [post_new_question]: the
    values are whatever the body held. *)
Record QuestionInput : Type := mkQuestionInput {
  in_question : json;
  in_answer : json;
  in_category_id : json;
  in_difficulty : json
}.

(** ** Exceptions and the handler monad *)

Inductive exn : Type :=
| HTTPException (code : Z)
| AttributeError
| TypeError
| IndexError
| ValueError
| SQLAlchemyError (orig : string).

Inductive outcome (A : Type) : Type :=
| Ret (a : A)
| Raise (e : exn).

Arguments Ret {A} a.
Arguments Raise {A} e.

Definition M (A : Type) : Type := Store -> outcome A * Store.

Definition ret {A} (a : A) : M A := fun st => (Ret a, st).

Definition raise {A} (e : exn) : M A := fun st => (Raise e, st).

Definition bind {A B} (m : M A) (k : A -> M B) : M B :=
  fun st =>
    match m st with
    | (Ret a, st') => k a st'
    | (Raise e, st') => (Raise e, st')
    end.

Notation "x <- m ;; k" := (bind m (fun x => k))
  (at level 61, m at next level, right associativity).
Notation "m ;;; k" := (bind m (fun _ => k))
  (at level 61, right associativity).

(** [abort(code)] *)
Definition abort {A} (code : Z) : M A := raise (HTTPException code).

(** [if c: abort(code)] *)
Definition abort_if (c : bool) (code : Z) : M unit :=
  if c then abort code else ret tt.

(** [try: m except exc.SQLAlchemyError as e: h(e.orig)] *)
Definition try_sql {A} (m : M A) (h : string -> M A) : M A :=
  fun st =>
    match m st with
    | (Raise (SQLAlchemyError e), st') => h e st'
    | r => r
    end.

(** [db.session.query(Category).all()] *)
Definition query_categories : M (list Category) :=
  fun st => (Ret (categories st), st).

(** [db.session.query(Question)...all()] with an optional filter *)
Definition query_questions (p : Question -> bool) : M (list Question) :=
  fun st => (Ret (filter p (questions st)), st).

(** [db.session.query(Question).filter(...).first()] *)
Definition first_question (p : Question -> bool) : M (option Question) :=
  fun st => (Ret (find p (questions st)), st).

(** [db.session.query(Category.id).filter(...).first()] *)
Definition first_category (p : Category -> bool) : M (option Category) :=
  fun st => (Ret (find p (categories st)), st).

(** [v.get(k, None)]: only a dict has [get]. *)
Definition attr_get (v : json) (k : string) : M json :=
  match v with
  | JDict d => ret (dict_get d k)
  | _ => raise AttributeError
  end.

(** ** Responses *)

Record Response : Type := mkResponse {
  status_code : Z;
  body : option json
}.

(** [jsonify(fields), code] *)
Definition jsonify (fields : list (string * json)) (code : Z) : Response :=
  {| status_code := code; body := Some (JDict fields) |}.

(** A field of the JSON body of a response ([JNull] when there is no
    body, or no such field). *)
Definition field (r : Response) (k : string) : json :=
  match body r with
  | Some (JDict d) => dict_get d k
  | _ => JNull
  end.

(** Whether the JSON body of a response has a given key. *)
Definition has_field (r : Response) (k : string) : bool :=
  match body r with
  | Some (JDict d) => dict_has d k
  | _ => false
  end.

Definition QUESTIONS_PER_PAGE : Z := 10.

(** ** Pagination, as Flask-SQLAlchemy's [paginate(page, per_page, False)]
    computes it: with [error_out] off a page below 1 is read as page 1,
    [items] is the slice, and [pages] is [ceil(total / per_page)].
    [paginate] is the object built from the rows once the database has
    answered; the query itself, which can fail, is [paginate_questions]
    below. *)

Record Pagination : Type := mkPagination {
  items : list Question;
  total : Z;
  pages : Z
}.

Definition paginate (page per_page : Z) (rows : list Question) : Pagination :=
  let page := if page <? 1 then 1 else page in
  let total := Z.of_nat (List.length rows) in
  {| items := firstn (Z.to_nat per_page)
                (skipn (Z.to_nat ((page - 1) * per_page)) rows);
     total := total;
     pages := if per_page =? 0 then 0 else (total + per_page - 1) / per_page |}.

(** The largest [bigint] of PostgreSQL. *)
Definition BIGINT_MAX : Z := 9223372036854775807.

(** [query.paginate(page, per_page, False)] on the questions: the rows
    are fetched with [LIMIT per_page OFFSET (page - 1) * per_page], and
    PostgreSQL refuses an offset above its [bigint] with a [DataError],
    which is an [SQLAlchemyError] (its text is not shown by the caller,
    which does not catch it). *)
Definition paginate_questions (page per_page : Z) : M Pagination :=
  fun st =>
    let first_page := if page <? 1 then 1 else page in
    if BIGINT_MAX <? (first_page - 1) * per_page
    then (Raise (SQLAlchemyError "bigint out of range"), st)
    else (Ret (paginate page per_page (questions st)), st).

(** ** [random.choice]: the generator's draw is an explicit input. *)
Definition choice (rng : nat) (l : list Z) : M Z :=
  match l with
  | [] => raise IndexError
  | x :: _ => ret (nth (Nat.modulo rng (List.length l)) l x)
  end.

(** [x in container] for an integer [x]: a list is searched with [==]; a
    JSON dict has string keys only, none equal to an integer; a string
    refuses a non-string left operand; the other values are not
    iterable. *)
Definition py_in (x : Z) (container : json) : exn + bool :=
  match container with
  | JList l => inr (existsb (int_eq x) l)
  | JDict _ => inr false
  | _ => inl TypeError
  end.

(** [[i.id for i in ids if i.id not in previous_questions]] *)
Fixpoint not_in_previous (ids : list Z) (previous_questions : json)
  : M (list Z) :=
  match ids with
  | [] => ret []
  | i :: rest =>
      match py_in i previous_questions with
      | inl e => raise e
      | inr seen =>
          tl <- not_in_previous rest previous_questions ;;
          ret (if seen then tl else i :: tl)
      end
  end.

(** ** Strings: [+], and PostgreSQL's [ILIKE] *)

(** ["%" + search_term + "%"]: [str + x] is defined for a string [x]
    only. *)
Definition str_concat3 (l : string) (v : json) (r : string) : M string :=
  match v with
  | JStr s => ret (l ++ s ++ r)%string
  | _ => raise TypeError
  end.

Definition lower_ascii (c : ascii) : ascii :=
  let n := nat_of_ascii c in
  if (65 <=? n)%nat && (n <=? 90)%nat then ascii_of_nat (n + 32) else c.

(** Lower-casing as the database does it for [ILIKE]: an ASCII
    character as [lower_ascii] has it, a character above ASCII as the
    database's locale has it ([locale]: the identity in the C locale,
    [E-acute] to [e-acute] in a Latin one), which is again a character
    above ASCII. *)
Definition lower_char (locale : ascii -> ascii) (c : ascii) : ascii :=
  match c with
  | Ascii _ _ _ _ _ _ _ false => lower_ascii c
  | Ascii _ _ _ _ _ _ _ true =>
      match locale c with
      | Ascii b0 b1 b2 b3 b4 b5 b6 _ => Ascii b0 b1 b2 b3 b4 b5 b6 true
      end
  end.

Fixpoint lower (locale : ascii -> ascii) (s : string) : string :=
  match s with
  | EmptyString => EmptyString
  | String c s' => String (lower_char locale c) (lower locale s')
  end.

(** Whether a string holds the character NUL, which the database driver
    refuses in a string parameter. *)
Fixpoint has_nul (s : string) : bool :=
  match s with
  | EmptyString => false
  | String c s' => Ascii.eqb c zero || has_nul s'
  end.

(** [LIKE]: [%] matches any run of characters, [_] any one character, a
    backslash makes the next pattern character literal, every other
    character matches itself.  (A pattern that ends in a lone backslash is
    an error in PostgreSQL; it matches nothing here.) *)
Fixpoint like (p : string) : string -> bool :=
  match p with
  | EmptyString =>
      fun s => match s with EmptyString => true | _ => false end
  | String c p' =>
      if Ascii.eqb c "%" then
        fix any_run (s : string) : bool :=
          like p' s
          || match s with
             | EmptyString => false
             | String _ s' => any_run s'
             end
      else if Ascii.eqb c "_" then
        fun s => match s with
                 | EmptyString => false
                 | String _ s' => like p' s'
                 end
      else if Ascii.eqb c "\" then
        match p' with
        | EmptyString => fun _ => false
        | String e p'' =>
            fun s => match s with
                     | EmptyString => false
                     | String x s' => Ascii.eqb x e && like p'' s'
                     end
        end
      else
        fun s => match s with
                 | EmptyString => false
                 | String x s' => Ascii.eqb x c && like p' s'
                 end
  end.

(** [column.ilike(pattern)]: [LIKE] on the lower-cased text and pattern. *)
Definition ilike (locale : ascii -> ascii) (text pattern : string) : bool :=
  like (lower locale pattern) (lower locale text).

(** The words of the specification, for comparison with [ilike]:
    [term] occurs in [text] as a substring, letter case ignored. *)
Fixpoint starts_with (t s : string) : bool :=
  match t with
  | EmptyString => true
  | String c t' =>
      match s with
      | EmptyString => false
      | String x s' => Ascii.eqb x c && starts_with t' s'
      end
  end.

Fixpoint substring_of (t s : string) : bool :=
  starts_with t s
  || match s with
     | EmptyString => false
     | String _ s' => substring_of t s'
     end.

Definition contains_ci (locale : ascii -> ascii) (text term : string)
  : bool :=
  substring_of (lower locale term) (lower locale text).

(** The characters [LIKE] gives a meaning to. *)
Definition is_meta (c : ascii) : bool :=
  Ascii.eqb c "%" || Ascii.eqb c "_" || Ascii.eqb c "\".

Fixpoint meta_free (s : string) : bool :=
  match s with
  | EmptyString => true
  | String c s' => negb (is_meta c) && meta_free s'
  end.

(** ** The application

    [models.py] and the libraries are not part of the handlers' file; what
    the handlers take from them is a parameter of the section. *)

Section App.

(** [Question.format] and [Category.format] of [models.py]. *)
Variable format_question : Question -> json.
Variable format_category : Category -> json.

(** [error.description] of the werkzeug exception for a status code. *)
Variable description : Z -> string.

(** The lower-casing of the database's locale above ASCII. *)
Variable locale : ascii -> ascii.

(** [Question.insert]: the store accepts the row and changes, or the
    insert fails. *)
Variable store_insert : QuestionInput -> Store -> insert_failure + Store.

(** The database error, if any, that a delete of the row meets. *)
Variable delete_fault : Question -> Store -> option string.

Definition Question_insert (new_question : QuestionInput) : M unit :=
  fun st =>
    match store_insert new_question st with
    | inl (Refused orig) => (Raise (SQLAlchemyError orig), st)
    | inl DriverValueError => (Raise ValueError, st)
    | inr st' => (Ret tt, st')
    end.

(** Modelled from the spec: [Question.delete] of [models.py], which is not
    in the handlers' file.  "If present, delete; on store-level failure,
    fails with [UnprocessableEntity] carrying the underlying store error
    text": the row with the question's id leaves the table unless the
    store reports an error. *)
Definition Question_delete (question : Question) : M unit :=
  fun st =>
    match delete_fault question st with
    | Some e => (Raise (SQLAlchemyError e), st)
    | None =>
        (Ret tt,
         {| categories := categories st;
            questions :=
              filter (fun r => negb (q_id r =? q_id question))
                (questions st) |})
    end.

(** Modelled from the spec: the relationship [category.questions] of
    [models.py], "all questions linked to that category". *)
Definition category_questions (category : Category) : M (list Question) :=
  query_questions (fun q => q_category_id q =? cat_id category).

(** *** GET requests *)

Definition get_categories : M Response :=
  categories <- query_categories ;;
  let category_list := map format_category categories in
  ret (jsonify [("categories", JList category_list);
                ("success", JBool true)] 200).

(** [page] is the query argument after [type=int] and [default=1]. *)
Definition get_questions (page : Z) : M Response :=
  questions <- paginate_questions page QUESTIONS_PER_PAGE ;;
  let questions_list := map format_question (items questions) in
  categories <- query_categories ;;
  let category_list := map format_category categories in
  abort_if ((page >? pages questions) && (page >? 1)) 404 ;;;
  ret (jsonify [("questions", JList questions_list);
                ("categories", JList category_list);
                ("current_category", JNull);
                ("success", JBool true);
                ("total_questions", JInt (total questions))] 200).

Definition get_questions_by_category (category_id : Z) : M Response :=
  category <- first_category (fun c => cat_id c =? category_id) ;;
  match category with
  | None =>
      ret (jsonify [("category_id", JInt category_id);
                    ("success", JBool false);
                    ("status", JInt 404);
                    ("message",
                     JStr "The category specified in the URL doesn't exist. Please resubmit with a correct category id.")]
             404)
  | Some category =>
      questions <- category_questions category ;;
      let questions_list := map format_question questions in
      ret (jsonify [("questions", JList questions_list);
                    ("total_questions",
                     JInt (Z.of_nat (List.length questions_list)));
                    ("current_category", JInt category_id);
                    ("success", JBool true)] 200)
  end.

(** *** DELETE requests *)

Definition delete_question (question_id : Z) : M Response :=
  question <- first_question (fun q => q_id q =? question_id) ;;
  match question with
  | None =>
      ret (jsonify [("question_id", JInt question_id);
                    ("success", JBool false);
                    ("status", JInt 404);
                    ("message",
                     JStr "The question specified in the URL doesn't exist. Please resubmit with a correct question id")]
             404)
  | Some question =>
      try_sql
        (Question_delete question ;;;
         ret {| status_code := 204; body := None |})
        (fun orig =>
           ret (jsonify [("question_id", JInt question_id);
                         ("success", JBool false);
                         ("status", JInt 422);
                         ("message", JStr orig)] 422))
  end.

(** *** POST requests *)

Definition post_new_question (body : json) : M Response :=
  try_sql
    (question <- attr_get body "question" ;;
     answer <- attr_get body "answer" ;;
     category_id <- attr_get body "category_id" ;;
     difficulty <- attr_get body "difficulty" ;;
     let new_question :=
       {| in_question := question;
          in_answer := answer;
          in_category_id := category_id;
          in_difficulty := difficulty |} in
     Question_insert new_question ;;;
     ret (jsonify [("question_input", body);
                   ("success", JBool true);
                   ("status", JInt 201);
                   ("message", JStr "The question was added to the database")]
            201))
    (fun orig =>
       ret (jsonify [("question_input", body);
                     ("success", JBool false);
                     ("status", JInt 422);
                     ("message", JStr orig)] 422)).

(** [db.session.query(Question).filter(Question.question.ilike(pattern))
    .all()]: the pattern is a string parameter of the query, and the
    driver raises [ValueError] when it holds NUL. *)
Definition search_query (pattern : string) : M (list Question) :=
  if has_nul pattern then raise ValueError
  else query_questions (fun q => ilike locale (q_question q) pattern).

Definition search_questions (body : json) : M Response :=
  search_term <- attr_get body "search_term" ;;
  abort_if (is_None search_term) 400 ;;;
  pattern <- str_concat3 "%" search_term "%" ;;
  questions <- search_query pattern ;;
  let question_list := map format_question questions in
  ret (jsonify [("questions", JList question_list);
                ("total_questions",
                 JInt (Z.of_nat (List.length question_list)));
                ("current_category", JNull);
                ("status", JInt 200)] 200).

(** The two ways [play_quizzes] fills [ids] and [filtered_ids]. *)
Definition all_ids : M (list Z) :=
  rows <- query_questions (fun _ => true) ;;
  ret (map q_id rows).

Definition category_ids (quiz_category_id : Z) : M (list Z) :=
  rows <- query_questions (fun q => q_category_id q =? quiz_category_id) ;;
  ret (map q_id rows).

Definition is_dict (v : json) : bool :=
  match v with JDict _ => true | _ => false end.

Definition play_quizzes (body : json) (rng : nat) : M Response :=
  previous_questions <- attr_get body "previous_questions" ;;
  quiz_category <- attr_get body "quiz_category" ;;
  quiz_category_type <- attr_get quiz_category "type" ;;
  abort_if (is_None previous_questions) 422 ;;;
  abort_if (is_None quiz_category_type) 422 ;;;
  pool <-
    (if eq_str quiz_category_type "click" then
       ids <- all_ids ;;
       filtered_ids <- not_in_previous ids previous_questions ;;
       ret (ids, filtered_ids)
     else
       abort_if (negb (is_dict quiz_category_type)) 422 ;;;
       quiz_category_id <- attr_get quiz_category_type "id" ;;
       abort_if (is_None quiz_category_id) 422 ;;;
       match quiz_category_id with
       | JInt quiz_category_id =>
           quiz_category_query_check <-
             first_category (fun c => cat_id c =? quiz_category_id) ;;
           abort_if
             (match quiz_category_query_check with
              | None => true
              | Some _ => false
              end) 422 ;;;
           ids <- category_ids quiz_category_id ;;
           filtered_ids <- not_in_previous ids previous_questions ;;
           ret (ids, filtered_ids)
       | _ => abort 422 (* [type(quiz_category_id) is not int] *)
       end) ;;
  let '(ids, filtered_ids) := pool in
  if (List.length filtered_ids =? 0)%nat then
    let questions_per_play := Z.min 5 (Z.of_nat (List.length ids)) in
    ret (jsonify [("question", JNull);
                  ("questions_per_play", JInt questions_per_play);
                  ("success", JBool true);
                  ("status", JInt 200)] 200)
  else
    let questions_per_play := Z.min 5 (Z.of_nat (List.length ids)) in
    question_id <- choice rng filtered_ids ;;
    question <- first_question (fun q => q_id q =? question_id) ;;
    match question with
    | None => raise AttributeError
    | Some question =>
        ret (jsonify [("question", format_question question);
                      ("questions_per_play", JInt questions_per_play);
                      ("success", JBool true);
                      ("status", JInt 200)] 200)
    end.

(** *** Error handlers *)

Definition get_400_error (error_description : string) : Response :=
  jsonify [("success", JBool false);
           ("status", JInt 400);
           ("message", JStr error_description)] 400.

Definition get_404_error (error_description : string) : Response :=
  jsonify [("success", JBool false);
           ("status", JInt 404);
           ("message", JStr error_description)] 404.

Definition get_422_error (error_description : string) : Response :=
  jsonify [("success", JBool false);
           ("status", JInt 422);
           ("message",
            JStr "The json that was sent did not include a proper field. Please refer to documentation.")]
    422.

Definition get_500_error (error_description : string) : Response :=
  jsonify [("success", JBool false);
           ("status", JInt 500);
           ("message", JStr error_description)] 500.

(** Flask's dispatch of an exception that leaves a handler: an
    [HTTPException] goes to the handler registered for its code (there is
    one for 400, 404, 422 and 500; any other code gets werkzeug's own
    page, which is not JSON), and every other exception is an internal
    server error. *)
Definition handle_exception (e : exn) : Response :=
  match e with
  | HTTPException code =>
      if code =? 400 then get_400_error (description 400)
      else if code =? 404 then get_404_error (description 404)
      else if code =? 422 then get_422_error (description 422)
      else if code =? 500 then get_500_error (description 500)
      else {| status_code := code; body := None |}
  | _ => get_500_error (description 500)
  end.

(** One request: run the handler on the store, answer with its response
    or with the error handler's. *)
Definition serve (handler : M Response) (st : Store) : Response * Store :=
  match handler st with
  | (Ret r, st') => (r, st')
  | (Raise e, st') => (handle_exception e, st')
  end.

End App.

(** ** Instances used to run the handlers on concrete requests *)

(** Modelled from the spec: [Category.format] of [models.py], "each
    serialized as [{id, type}]". *)
Definition Category_format (c : Category) : json :=
  JDict [("id", JInt (cat_id c)); ("type", JStr (cat_type c))].

(** Modelled from the spec: [Question.format] of [models.py], the five
    fields of the data model, "[{id, question, answer, category_id,
    difficulty}]". *)
Definition Question_format (q : Question) : json :=
  JDict [("id", JInt (q_id q));
         ("question", JStr (q_question q));
         ("answer", JStr (q_answer q));
         ("category_id", JInt (q_category_id q));
         ("difficulty", JInt (q_difficulty q))].

(** The rows the test suite's [setUp] loads. *)
Definition test_categories : list Category :=
  [mkCategory 1 "Animals"; mkCategory 2 "Math"; mkCategory 3 "Science";
   mkCategory 4 "Disney"; mkCategory 5 "Sci-Fi"].

Definition test_questions : list Question :=
  [mkQuestion 1 "2+2" "4" 2 4;
   mkQuestion 2 "What country borders the US to the North?" "Canada" 2 4].

Definition test_store : Store :=
  {| categories := test_categories; questions := test_questions |}.

(** ** Vocabulary of the statements *)

(** The pool of question ids a scope marker selects, when it is valid:
    the sentinel ["click"] selects every question, an object with an
    integer [id] of an existing category selects that category's. *)
Inductive in_scope (st : Store) : json -> list Z -> Prop :=
| scope_all :
    in_scope st (JStr "click") (map q_id (questions st))
| scope_category (td : list (string * json)) (cid : Z) (c : Category) :
    dict_get td "id" = JInt cid ->
    In c (categories st) ->
    cat_id c = cid ->
    in_scope st (JDict td)
      (map q_id (filter (fun q => q_category_id q =? cid) (questions st))).

(** [pool_ids - previous_questions] *)
Definition remaining (pool_ids : list Z) (previous_questions : list json)
  : list Z :=
  filter (fun i => negb (existsb (int_eq i) previous_questions)) pool_ids.

(** What the four checks refuse, for a scope marker [t] that is present
    and is not the sentinel. *)
Definition category_refused (st : Store) (t : json) : Prop :=
  is_dict t = false
  \/ exists td,
       t = JDict td
       /\ (dict_has td "id" = false
           \/ (forall n, dict_get td "id" <> JInt n)
           \/ exists n, dict_get td "id" = JInt n
                        /\ forall c, In c (categories st) -> cat_id c <> n).

(** The 404 response of [delete_question]. *)
Definition not_found_question (question_id : Z) : Response :=
  jsonify [("question_id", JInt question_id);
           ("success", JBool false);
           ("status", JInt 404);
           ("message",
            JStr "The question specified in the URL doesn't exist. Please resubmit with a correct question id")]
    404.

(** A computation that leaves the store as it found it. *)
Definition frame {A} (m : M A) : Prop := forall st, snd (m st) = st.

(** A JSON response has a boolean [success], and a failure (status 400
    and up) has [status] and [message] as well.  A response without a
    body, as the 204 of a deletion, has nothing to show. *)
Definition enveloped (r : Response) : Prop :=
  match body r with
  | None => True
  | Some _ =>
      (exists b, field r "success" = JBool b)
      /\ (400 <= status_code r ->
          has_field r "status" = true /\ has_field r "message" = true)
  end.

(** Every response a handler returns is enveloped. *)
Definition answers_enveloped (m : M Response) : Prop :=
  forall st r st', m st = (Ret r, st') -> enveloped r.

(** What a computation may end with: [P] holds of a returned value and
    [Q] of a raised exception. *)
Definition post {A} (m : M A) (P : A -> Prop) (Q : exn -> Prop) : Prop :=
  forall st,
    match fst (m st) with
    | Ret a => P a
    | Raise e => Q e
    end.

(** An exception that is not an [abort]. *)
Definition internal (e : exn) : Prop :=
  match e with
  | HTTPException _ => False
  | _ => True
  end.

(** The [status] and [success] fields of a JSON body agree with the HTTP
    status of the response. *)
Definition coherent (r : Response) : Prop :=
  (has_field r "status" = true -> field r "status" = JInt (status_code r))
  /\ (forall b, field r "success" = JBool b -> b = (status_code r <? 400)).

(** The rows of page [p] of the listing. *)
Definition page_rows (st : Store) (p : Z) : list Question :=
  items (paginate p QUESTIONS_PER_PAGE (questions st)).

(** The number of pages of the listing. *)
Definition page_count (st : Store) : Z :=
  pages (paginate 1 QUESTIONS_PER_PAGE (questions st)).

(** The success response of the quiz for a served question (or [null]). *)
Definition quiz_response (question : json) (pool : list Z) : Response :=
  jsonify [("question", question);
           ("questions_per_play",
            JInt (Z.min 5 (Z.of_nat (List.length pool))));
           ("success", JBool true);
           ("status", JInt 200)] 200.

(** The closing block of [play_quizzes], from the emptiness test on. *)
Definition quiz_answer (format_question : Question -> json) (rng : nat)
  (ids filtered_ids : list Z) : M Response :=
  if (List.length filtered_ids =? 0)%nat then
    ret (jsonify [("question", JNull);
                  ("questions_per_play",
                   JInt (Z.min 5 (Z.of_nat (List.length ids))));
                  ("success", JBool true);
                  ("status", JInt 200)] 200)
  else
    question_id <- choice rng filtered_ids ;;
    question <- first_question (fun q => q_id q =? question_id) ;;
    match question with
    | None => raise AttributeError
    | Some question =>
        ret (jsonify [("question", format_question question);
                      ("questions_per_play",
                       JInt (Z.min 5 (Z.of_nat (List.length ids))));
                      ("success", JBool true);
                      ("status", JInt 200)] 200)
    end.

(** * Properties *)

(** ** The monad *)

Lemma bind_ret {A B} (a : A) (k : A -> M B) (st : Store) :
  bind (ret a) k st = k a st.
Proof. reflexivity. Qed.

Lemma bind_raise {A B} (e : exn) (k : A -> M B) (st : Store) :
  bind (raise e) k st = (Raise e, st).
Proof. reflexivity. Qed.

Lemma bind_run {A B} (m : M A) (k : A -> M B) (st st' : Store) (a : A) :
  m st = (Ret a, st') -> bind m k st = k a st'.
Proof. intros H; unfold bind; now rewrite H. Qed.

Lemma bind_fail {A B} (m : M A) (k : A -> M B) (st st' : Store) (e : exn) :
  m st = (Raise e, st') -> bind m k st = (Raise e, st').
Proof. intros H; unfold bind; now rewrite H. Qed.

(** ** Reads and the list comprehension *)

Lemma find_id_of_mem (rows : list Question) (i : Z) :
  In i (map q_id rows) ->
  exists q, find (fun q => q_id q =? i) rows = Some q
            /\ In q rows /\ q_id q = i.
Proof.
  induction rows as [|r rows IH]; simpl; [easy|].
  intros [Hr | Hin].
  - exists r. rewrite Hr, Z.eqb_refl. auto.
  - destruct (q_id r =? i) eqn:E.
    + exists r. apply Z.eqb_eq in E. auto.
    + destruct (IH Hin) as (q & Hf & Hq & Hi). exists q. auto.
Qed.

Lemma find_id_none (rows : list Question) (i : Z) :
  ~ In i (map q_id rows) -> find (fun q => q_id q =? i) rows = None.
Proof.
  induction rows as [|r rows IH]; simpl; [easy|].
  intros H. destruct (q_id r =? i) eqn:E.
  - apply Z.eqb_eq in E. tauto.
  - apply IH. tauto.
Qed.

Lemma not_in_previous_list (ids : list Z) (prev : list json) (st : Store) :
  not_in_previous ids (JList prev) st = (Ret (remaining ids prev), st).
Proof.
  induction ids as [|i ids IH]; simpl; [reflexivity|].
  unfold bind. rewrite IH. unfold ret.
  now destruct (existsb (int_eq i) prev).
Qed.

Lemma not_in_previous_cases (ids : list Z) (p : json) (st : Store) :
  (exists l, not_in_previous ids p st = (Ret l, st))
  \/ not_in_previous ids p st = (Raise TypeError, st).
Proof.
  induction ids as [|i ids IH]; simpl.
  - left. now exists [].
  - destruct (py_in i p) as [e|seen] eqn:E.
    + right. destruct p; simpl in E; try discriminate;
        now injection E as <-.
    + destruct IH as [[l Hl] | Hl].
      * left. eexists. unfold bind. rewrite Hl. reflexivity.
      * right. unfold bind. now rewrite Hl.
Qed.

Lemma remaining_spec (pool : list Z) (prev : list json) (i : Z) :
  In i (remaining pool prev)
  <-> In i pool /\ existsb (int_eq i) prev = false.
Proof.
  unfold remaining. rewrite filter_In, negb_true_iff. tauto.
Qed.

(** ** The closing block of the quiz handler *)

Lemma quiz_answer_empty fq rng ids st :
  quiz_answer fq rng ids [] st =
  (Ret (jsonify [("question", JNull);
                 ("questions_per_play",
                  JInt (Z.min 5 (Z.of_nat (List.length ids))));
                 ("success", JBool true);
                 ("status", JInt 200)] 200), st).
Proof. reflexivity. Qed.

Lemma quiz_answer_pick fq rng ids filtered st :
  filtered <> [] ->
  incl filtered (map q_id (questions st)) ->
  exists q,
    In q (questions st) /\ In (q_id q) filtered
    /\ quiz_answer fq rng ids filtered st =
       (Ret (jsonify [("question", fq q);
                      ("questions_per_play",
                       JInt (Z.min 5 (Z.of_nat (List.length ids))));
                      ("success", JBool true);
                      ("status", JInt 200)] 200), st).
Proof.
  intros Hne Hincl. destruct filtered as [|x rest]; [easy|].
  set (l := x :: rest) in *.
  assert (Hin : In (nth (Nat.modulo rng (List.length l)) l x) l).
  { apply nth_In. apply Nat.mod_upper_bound. subst l. simpl. lia. }
  destruct (find_id_of_mem (questions st) _ (Hincl _ Hin))
    as (q & Hf & Hq & Hi).
  exists q. split; [exact Hq|]. split; [now rewrite Hi|].
  unfold quiz_answer. subst l. cbn [List.length Nat.eqb].
  unfold bind, choice, ret, first_question.
  now rewrite Hf.
Qed.

Lemma quiz_answer_cases fq rng ids filtered st :
  (exists qj,
      quiz_answer fq rng ids filtered st =
      (Ret (jsonify [("question", qj);
                     ("questions_per_play",
                      JInt (Z.min 5 (Z.of_nat (List.length ids))));
                     ("success", JBool true);
                     ("status", JInt 200)] 200), st))
  \/ quiz_answer fq rng ids filtered st = (Raise AttributeError, st).
Proof.
  unfold quiz_answer. destruct filtered as [|x rest].
  - left. now exists JNull.
  - cbn [List.length Nat.eqb].
    cbv beta iota delta [bind ret choice first_question raise].
    destruct (find _ (questions st)) as [q|].
    + left. now exists (fq q).
    + now right.
Qed.

(** ** Validation in the quiz handler *)

Lemma find_cat_of_mem (cats : list Category) (c : Category) :
  In c cats ->
  exists c', find (fun x => cat_id x =? cat_id c) cats = Some c'.
Proof.
  induction cats as [|r cats IH]; simpl; [easy|].
  intros [-> | Hin].
  - rewrite Z.eqb_refl. eauto.
  - destruct (cat_id r =? cat_id c); eauto.
Qed.

Lemma find_cat_none (cats : list Category) (cid : Z) :
  (forall c, In c cats -> cat_id c <> cid) ->
  find (fun x => cat_id x =? cid) cats = None.
Proof.
  induction cats as [|r cats IH]; simpl; [easy|].
  intros H. destruct (cat_id r =? cid) eqn:E.
  - apply Z.eqb_eq in E. exfalso. apply (H r); auto.
  - apply IH. intros c Hc. apply H. auto.
Qed.

Lemma in_scope_incl st t pool :
  in_scope st t pool -> incl pool (map q_id (questions st)).
Proof.
  intros [|td cid c _ _ _] i Hi; [exact Hi|].
  apply in_map_iff in Hi as (q & <- & Hq).
  apply filter_In in Hq as [Hq _]. now apply in_map.
Qed.

(** With a valid scope and [previous_questions] present, the handler is
    the list comprehension over the pool followed by the closing block. *)
Lemma play_quizzes_in_scope fq d qc t pool rng st :
  dict_get d "quiz_category" = JDict qc ->
  dict_get qc "type" = t ->
  in_scope st t pool ->
  is_None (dict_get d "previous_questions") = false ->
  play_quizzes fq (JDict d) rng st =
  bind (not_in_previous pool (dict_get d "previous_questions"))
    (quiz_answer fq rng pool) st.
Proof.
  intros Hq Ht Hs Hp.
  unfold play_quizzes. cbn [attr_get]. rewrite !bind_ret, Hq.
  cbn [attr_get]. rewrite bind_ret, Ht, Hp.
  cbn [abort_if]. rewrite bind_ret.
  destruct Hs as [|td cid c Hid Hc Hcid].
  - cbn [is_None abort_if eq_str]. rewrite bind_ret.
    change ("click" =? "click")%string with true. cbv iota.
    unfold all_ids, query_questions, bind at 1 2 3 4. cbn [ret].
    rewrite filter_true. unfold bind.
    now destruct (not_in_previous _ _ st) as [[l|e] st'].
  - destruct (find_cat_of_mem _ _ Hc) as [c' Hc']. rewrite Hcid in Hc'.
    cbn [is_None abort_if eq_str is_dict negb attr_get]. rewrite Hid.
    cbv beta iota delta [bind ret first_category category_ids
                         query_questions abort_if is_None].
    rewrite Hc'.
    now destruct (not_in_previous _ _ st) as [[l|e] st'].
Qed.

(** With [quiz_category] an object, a missing [previous_questions] is
    refused whatever the rest of the body holds. *)
Lemma play_quizzes_no_previous fq d qc rng st :
  dict_get d "quiz_category" = JDict qc ->
  is_None (dict_get d "previous_questions") = true ->
  play_quizzes fq (JDict d) rng st = (Raise (HTTPException 422), st).
Proof.
  intros Hq Hp.
  unfold play_quizzes. cbn [attr_get]. rewrite !bind_ret, Hq.
  cbn [attr_get]. rewrite bind_ret, Hp. reflexivity.
Qed.

(** With a list for [previous_questions], the closing block runs on
    [pool_ids - previous_questions]. *)
Lemma play_quizzes_with_list fq st d qc t pool prev rng :
  dict_get d "previous_questions" = JList prev ->
  dict_get d "quiz_category" = JDict qc ->
  dict_get qc "type" = t ->
  in_scope st t pool ->
  play_quizzes fq (JDict d) rng st =
  quiz_answer fq rng pool (remaining pool prev) st.
Proof.
  intros Hp Hq Ht Hs.
  rewrite (play_quizzes_in_scope fq d qc t pool rng st Hq Ht Hs)
    by now rewrite Hp.
  rewrite Hp. apply bind_run, not_in_previous_list.
Qed.

(** ** Quiz play: the question served *)

(** C1.  For every store, every valid scope with its pool of question
    ids and every list [previous_questions]: when
    [remaining = pool_ids - previous_questions] is empty the response is
    the success envelope with [question = null]; otherwise it is the
    success envelope with a question of the store whose id is in
    [remaining], hence not in [previous_questions].  The store is left as
    it was. *)
Theorem play_quizzes_serves_unseen_question
  (fq : Question -> json) (descr : Z -> string) (st : Store)
  (d qc : list (string * json)) (t : json) (pool : list Z)
  (prev : list json) (rng : nat) :
  dict_get d "previous_questions" = JList prev ->
  dict_get d "quiz_category" = JDict qc ->
  dict_get qc "type" = t ->
  in_scope st t pool ->
  (remaining pool prev = [] ->
   serve descr (play_quizzes fq (JDict d) rng) st =
   (jsonify [("question", JNull);
             ("questions_per_play",
              JInt (Z.min 5 (Z.of_nat (List.length pool))));
             ("success", JBool true);
             ("status", JInt 200)] 200, st))
  /\ (remaining pool prev <> [] ->
      exists q,
        In q (questions st)
        /\ In (q_id q) (remaining pool prev)
        /\ existsb (int_eq (q_id q)) prev = false
        /\ serve descr (play_quizzes fq (JDict d) rng) st =
           (jsonify [("question", fq q);
                     ("questions_per_play",
                      JInt (Z.min 5 (Z.of_nat (List.length pool))));
                     ("success", JBool true);
                     ("status", JInt 200)] 200, st)).
Proof.
  intros Hp Hq Ht Hs.
  unfold serve.
  rewrite (play_quizzes_with_list fq st d qc t pool prev rng Hp Hq Ht Hs).
  split.
  - intros ->. now rewrite quiz_answer_empty.
  - intros Hne.
    destruct (quiz_answer_pick fq rng pool (remaining pool prev) st Hne)
      as (q & Hin & Hrem & Hans).
    { intros i Hi. apply remaining_spec in Hi as [Hi _].
      now apply (in_scope_incl st t pool Hs). }
    exists q. rewrite Hans. repeat split; try assumption.
    now apply remaining_spec in Hrem.
Qed.

Lemma play_quizzes_serves_unseen_question_witness :
  exists q,
    In q test_questions
    /\ In (q_id q) (remaining [1; 2] [JInt 1])
    /\ existsb (int_eq (q_id q)) [JInt 1] = false
    /\ serve (fun _ => "") (play_quizzes Question_format
         (JDict [("previous_questions", JList [JInt 1]);
                 ("quiz_category", JDict [("type", JStr "click")])]) 7)
         test_store =
       (jsonify [("question", Question_format q);
                 ("questions_per_play", JInt 2);
                 ("success", JBool true);
                 ("status", JInt 200)] 200, test_store).
Proof.
  apply (play_quizzes_serves_unseen_question Question_format (fun _ => "")
           test_store
           [("previous_questions", JList [JInt 1]);
            ("quiz_category", JDict [("type", JStr "click")])]
           [("type", JStr "click")] (JStr "click") [1; 2] [JInt 1] 7).
  - reflexivity.
  - reflexivity.
  - reflexivity.
  - exact (scope_all test_store).
  - discriminate.
Defined.

(** ** Quiz play: [questions_per_play] *)

Lemma status_of_internal_error descr e :
  (forall code, e <> HTTPException code) ->
  status_code (handle_exception descr e) = 500.
Proof. destruct e; intros H; try reflexivity. now elim (H code). Qed.

(** C2.  For every store, every valid scope with its pool and every
    body: a response with status 200 carries
    [questions_per_play = min(5, |pool|)], the size of the pool before
    [previous_questions] is taken out, whatever [previous_questions]
    holds; and when [previous_questions] is a list the response does have
    status 200. *)
Theorem play_quizzes_questions_per_play
  (fq : Question -> json) (descr : Z -> string) (st : Store)
  (d qc : list (string * json)) (t : json) (pool : list Z) (rng : nat) :
  dict_get d "quiz_category" = JDict qc ->
  dict_get qc "type" = t ->
  in_scope st t pool ->
  let r := fst (serve descr (play_quizzes fq (JDict d) rng) st) in
  (status_code r = 200 ->
   field r "questions_per_play" =
   JInt (Z.min 5 (Z.of_nat (List.length pool))))
  /\ ((exists prev, dict_get d "previous_questions" = JList prev) ->
      status_code r = 200).
Proof.
  intros Hq Ht Hs r. subst r. split.
  - unfold serve.
    destruct (is_None (dict_get d "previous_questions")) eqn:Hp.
    + rewrite (play_quizzes_no_previous fq d qc rng st Hq Hp).
      discriminate.
    + rewrite (play_quizzes_in_scope fq d qc t pool rng st Hq Ht Hs Hp).
      destruct (not_in_previous_cases pool
                  (dict_get d "previous_questions") st) as [[l Hl] | Hl].
      * rewrite (bind_run _ _ _ _ _ Hl).
        destruct (quiz_answer_cases fq rng pool l st) as [[qj Ha] | Ha];
          rewrite Ha; [reflexivity | discriminate].
      * rewrite (bind_fail _ _ _ _ _ Hl). discriminate.
  - intros [prev Hp]. unfold serve.
    rewrite (play_quizzes_with_list fq st d qc t pool prev rng Hp Hq Ht Hs).
    destruct (remaining pool prev) as [|x rest] eqn:He.
    + now rewrite quiz_answer_empty.
    + destruct (quiz_answer_pick fq rng pool (x :: rest) st)
        as (q & _ & _ & Hans).
      * discriminate.
      * intros i Hi. rewrite <- He in Hi.
        apply remaining_spec in Hi as [Hi _].
        now apply (in_scope_incl st t pool Hs).
      * now rewrite Hans.
Qed.

Lemma play_quizzes_questions_per_play_witness :
  field
    (fst (serve (fun _ => "") (play_quizzes Question_format
       (JDict [("previous_questions", JList [JInt 1; JInt 2]);
               ("quiz_category",
                JDict [("type", JDict [("id", JInt 2);
                                       ("type", JStr "Math")])])]) 0)
       test_store))
    "questions_per_play" = JInt 2.
Proof.
  apply (play_quizzes_questions_per_play Question_format (fun _ => "")
           test_store
           [("previous_questions", JList [JInt 1; JInt 2]);
            ("quiz_category",
             JDict [("type", JDict [("id", JInt 2);
                                    ("type", JStr "Math")])])]
           [("type", JDict [("id", JInt 2); ("type", JStr "Math")])]
           (JDict [("id", JInt 2); ("type", JStr "Math")])
           [1; 2] 0).
  - reflexivity.
  - reflexivity.
  - exact (scope_category test_store
             [("id", JInt 2); ("type", JStr "Math")] 2
             (mkCategory 2 "Math") eq_refl
             (or_intror (or_introl eq_refl)) eq_refl).
  - reflexivity.
Defined.

(** ** Quiz play: validation of the category *)

Lemma dict_get_absent (d : list (string * json)) (k : string) :
  dict_has d k = false -> dict_get d k = JNull.
Proof.
  induction d as [|[k' v] d IH]; simpl; [reflexivity|].
  destruct (String.eqb k k'); simpl; [discriminate | exact IH].
Qed.

Lemma play_quizzes_refuses_category fq d qc t rng st :
  dict_get d "quiz_category" = JDict qc ->
  dict_get qc "type" = t ->
  is_None t = false ->
  eq_str t "click" = false ->
  category_refused st t ->
  play_quizzes fq (JDict d) rng st = (Raise (HTTPException 422), st).
Proof.
  intros Hq Ht Hn Hc Hbad.
  unfold play_quizzes. cbn [attr_get]. rewrite !bind_ret, Hq.
  cbn [attr_get]. rewrite bind_ret, Ht.
  destruct (is_None (dict_get d "previous_questions")); [reflexivity|].
  cbn [abort_if]. rewrite bind_ret, Hn. cbn [abort_if].
  rewrite bind_ret, Hc.
  destruct Hbad as [Hd | (td & -> & Hid)].
  - now rewrite Hd.
  - cbn [is_dict negb abort_if attr_get].
    destruct Hid as [Habs | [Hint | (n & Hn' & Hcat)]].
    + now rewrite (dict_get_absent td "id" Habs).
    + destruct (dict_get td "id") eqn:E; try reflexivity.
      now elim (Hint n).
    + rewrite Hn'.
      cbv beta iota delta [bind ret first_category abort_if is_None].
      now rewrite (find_cat_none _ _ Hcat).
Qed.

Lemma play_quizzes_accepts_only_category fq d qc t rng st :
  dict_get d "quiz_category" = JDict qc ->
  dict_get qc "type" = t ->
  is_None t = false ->
  eq_str t "click" = false ->
  fst (play_quizzes fq (JDict d) rng st) <> Raise (HTTPException 422) ->
  exists td cid c,
    t = JDict td /\ dict_get td "id" = JInt cid
    /\ In c (categories st) /\ cat_id c = cid
    /\ is_None (dict_get d "previous_questions") = false.
Proof.
  intros Hq Ht Hn Hc.
  unfold play_quizzes. cbn [attr_get]. rewrite !bind_ret, Hq.
  cbn [attr_get]. rewrite bind_ret, Ht.
  destruct (is_None (dict_get d "previous_questions")); [easy|].
  cbn [abort_if]. rewrite bind_ret, Hn. cbn [abort_if].
  rewrite bind_ret, Hc.
  destruct t as [| | | | |l|td]; try easy.
  cbn [is_dict negb abort_if attr_get].
  destruct (dict_get td "id") as [| |cid| | | |] eqn:E; try easy.
  cbv beta iota delta [bind ret first_category abort_if is_None].
  destruct (find _ (categories st)) as [c|] eqn:F; [|easy].
  intros _. apply find_some in F as [Hin Hid]. apply Z.eqb_eq in Hid.
  now exists td, cid, c.
Qed.

(** C4.  For every request whose [quiz_category.type] is present and is
    not the sentinel: the response is the 422 envelope whenever the value
    is not an object, or the object has no [id], or the [id] is not an
    integer, or no category has that id; and a response other than 422
    means that all four checks passed (and [previous_questions] is
    present), the pool then being the ids of the questions of that
    category. *)
Theorem play_quizzes_category_validation
  (fq : Question -> json) (descr : Z -> string) (st : Store)
  (d qc : list (string * json)) (t : json) (rng : nat) :
  dict_get d "quiz_category" = JDict qc ->
  dict_get qc "type" = t ->
  is_None t = false ->
  eq_str t "click" = false ->
  let r := fst (serve descr (play_quizzes fq (JDict d) rng) st) in
  (category_refused st t -> r = get_422_error (descr 422))
  /\ (status_code r <> 422 ->
      exists td cid c,
        t = JDict td /\ dict_get td "id" = JInt cid
        /\ In c (categories st) /\ cat_id c = cid
        /\ let pool :=
             map q_id
               (filter (fun q => q_category_id q =? cid) (questions st)) in
           play_quizzes fq (JDict d) rng st =
           bind (not_in_previous pool (dict_get d "previous_questions"))
             (quiz_answer fq rng pool) st).
Proof.
  intros Hq Ht Hn Hc r. subst r. split.
  - intros Hbad. unfold serve.
    now rewrite (play_quizzes_refuses_category fq d qc t rng st
                   Hq Ht Hn Hc Hbad).
  - intros Hst.
    destruct (play_quizzes_accepts_only_category fq d qc t rng st
                Hq Ht Hn Hc) as (td & cid & c & Htd & Hid & Hin & Hcid & Hp).
    + intros Hr. apply Hst. unfold serve.
      destruct (play_quizzes fq (JDict d) rng st) as [o st'].
      simpl in Hr. now rewrite Hr.
    + exists td, cid, c. repeat split; try assumption.
      apply (play_quizzes_in_scope fq d qc t _ rng st Hq Ht); [|exact Hp].
      rewrite Htd. exact (scope_category st td cid c Hid Hin Hcid).
Qed.

Lemma play_quizzes_category_validation_witness :
  fst (serve (fun _ => "") (play_quizzes Question_format
         (JDict [("previous_questions", JList [JInt 1]);
                 ("quiz_category",
                  JDict [("type", JList [JStr "hello"])])]) 0)
         test_store)
  = get_422_error "".
Proof.
  apply (play_quizzes_category_validation Question_format (fun _ => "")
           test_store
           [("previous_questions", JList [JInt 1]);
            ("quiz_category", JDict [("type", JList [JStr "hello"])])]
           [("type", JList [JStr "hello"])] (JList [JStr "hello"]) 0).
  - reflexivity.
  - reflexivity.
  - reflexivity.
  - reflexivity.
  - left. reflexivity.
Defined.

(** ** Quiz play: the order of the presence checks *)

(** C3, where it holds: with [quiz_category] an object, a body without
    [previous_questions] gets the 422 envelope, whether or not the object
    has a [type]. *)
Lemma play_quizzes_no_previous_422 fq descr d qc rng st :
  dict_get d "quiz_category" = JDict qc ->
  is_None (dict_get d "previous_questions") = true ->
  serve descr (play_quizzes fq (JDict d) rng) st
  = (get_422_error (descr 422), st).
Proof.
  intros Hq Hp. unfold serve.
  now rewrite (play_quizzes_no_previous fq d qc rng st Hq Hp).
Qed.

(** C3, where it fails: [quiz_category.type] is read before
    [previous_questions] is tested, so the empty body, which has neither
    field, raises [AttributeError] on [None.get] and is answered by the
    500 handler, not by the 422 one. *)
Theorem play_quizzes_empty_body_is_500
  (fq : Question -> json) (descr : Z -> string) (rng : nat) (st : Store) :
  dict_get [] "previous_questions" = JNull
  /\ play_quizzes fq (JDict []) rng st = (Raise AttributeError, st)
  /\ serve descr (play_quizzes fq (JDict []) rng) st
     = (get_500_error (descr 500), st)
  /\ status_code (fst (serve descr (play_quizzes fq (JDict []) rng) st))
     <> 422.
Proof. repeat split. discriminate. Qed.

(** ** Question listing *)

Lemma pages_is_ceiling (page : Z) (rows : list Question) :
  let pg := paginate page QUESTIONS_PER_PAGE rows in
  total pg = Z.of_nat (List.length rows)
  /\ total pg <= 10 * pages pg < total pg + 10.
Proof.
  unfold paginate, QUESTIONS_PER_PAGE. cbn [total pages Z.eqb].
  split; [reflexivity|].
  set (n := Z.of_nat (List.length rows)).
  replace (n + 10 - 1) with (n + 9) by lia.
  pose proof (Z.div_mod (n + 9) 10 ltac:(lia)) as Hd.
  pose proof (Z.mod_pos_bound (n + 9) 10 ltac:(lia)) as Hm.
  lia.
Qed.

Lemma paginate_questions_fits (page : Z) (st : Store) :
  (page - 1) * QUESTIONS_PER_PAGE <= BIGINT_MAX ->
  paginate_questions page QUESTIONS_PER_PAGE st
  = (Ret (paginate page QUESTIONS_PER_PAGE (questions st)), st).
Proof.
  unfold paginate_questions, QUESTIONS_PER_PAGE, BIGINT_MAX. intros H.
  destruct (page <? 1); [reflexivity|].
  destruct (_ <? (page - 1) * 10) eqn:E; [|reflexivity].
  apply Z.ltb_lt in E. lia.
Qed.


(** The listing, when the offset of the page fits a [bigint]. *)
Lemma get_questions_fits fq fc descr st page :
  (page - 1) * QUESTIONS_PER_PAGE <= BIGINT_MAX ->
  let pg := paginate page QUESTIONS_PER_PAGE (questions st) in
  serve descr (get_questions fq fc page) st =
  if (page >? pages pg) && (page >? 1)
  then (get_404_error (descr 404), st)
  else (jsonify [("questions", JList (map fq (items pg)));
                 ("categories", JList (map fc (categories st)));
                 ("current_category", JNull);
                 ("success", JBool true);
                 ("total_questions",
                  JInt (Z.of_nat (List.length (questions st))))] 200, st).
Proof.
  intros H pg. subst pg. unfold serve, get_questions.
  rewrite (bind_run _ _ _ _ _ (paginate_questions_fits page st H)).
  cbv beta iota delta [bind ret query_categories].
  now destruct ((page >? pages _) && (page >? 1)).
Qed.





Example get_questions_first_page :
  let r := fst (serve (fun _ => "")
                  (get_questions Question_format Category_format 1)
                  test_store) in
  status_code r = 200 /\ field r "total_questions" = JInt 2.
Proof. split; reflexivity. Qed.

(** ** Question creation *)

(** C8, as the handler has it.  For every JSON object sent as body: the
    row handed to the store holds the body's [question], [answer],
    [category_id] and [difficulty], [null] for an absent one, and nothing
    else of the body; it is handed over whatever those values are.  When
    the store refuses it the response is the 422 envelope with the
    store's error text, and when the store takes it the 201 envelope;
    both carry the body back as [question_input].  When the driver
    raises its [ValueError], which the [except] clause does not catch,
    the response is that of the 500 handler. *)
Theorem post_new_question_contract
  (store_insert : QuestionInput -> Store -> insert_failure + Store)
  (descr : Z -> string) (d : list (string * json)) (st : Store) :
  serve descr (post_new_question store_insert (JDict d)) st =
  match store_insert
          {| in_question := dict_get d "question";
             in_answer := dict_get d "answer";
             in_category_id := dict_get d "category_id";
             in_difficulty := dict_get d "difficulty" |} st with
  | inl (Refused orig) =>
      (jsonify [("question_input", JDict d);
                ("success", JBool false);
                ("status", JInt 422);
                ("message", JStr orig)] 422, st)
  | inl DriverValueError => (get_500_error (descr 500), st)
  | inr st' =>
      (jsonify [("question_input", JDict d);
                ("success", JBool true);
                ("status", JInt 201);
                ("message", JStr "The question was added to the database")]
         201, st')
  end.
Proof.
  unfold serve, post_new_question, try_sql.
  cbv beta iota delta [bind ret attr_get Question_insert].
  now destruct (store_insert _ st) as [[orig|] | st'].
Qed.

(** C8 as stated fails on a body that is not an object: for the JSON
    list below no row is built, [body.get] raising [AttributeError]
    outside what the [except] clause catches; the response is that of the
    500 handler, without [question_input], and the store is unchanged
    though it would have taken any row. *)
Lemma post_new_question_list_body_counterexample :
  let take_all := fun (_ : QuestionInput) (_ : Store) =>
                    @inr insert_failure Store (mkStore [] []) in
  let r := serve (fun _ => "")
             (post_new_question take_all
                (JList [JStr "2+2"; JStr "4"; JInt 1; JInt 1])) test_store in
  status_code (fst r) = 500
  /\ status_code (fst r) <> 201 /\ status_code (fst r) <> 422
  /\ has_field (fst r) "question_input" = false
  /\ snd r = test_store.
Proof. repeat split; discriminate. Qed.

(** ** Question deletion *)

Lemma delete_question_absent delete_fault descr st question_id :
  ~ In question_id (map q_id (questions st)) ->
  serve descr (delete_question delete_fault question_id) st
  = (not_found_question question_id, st).
Proof.
  intros H. unfold serve, delete_question.
  cbv beta iota delta [bind ret first_question].
  now rewrite (find_id_none _ _ H).
Qed.

Lemma removed_id_absent (rows : list Question) (i : Z) :
  ~ In i (map q_id (filter (fun r => negb (q_id r =? i)) rows)).
Proof.
  intros H. apply in_map_iff in H as (q & Hi & Hq).
  apply filter_In in Hq as [_ Hq].
  apply negb_true_iff, Z.eqb_neq in Hq. contradiction.
Qed.

(** C6.  For every store and id: when no question has the id the
    response is the 404 envelope and the store is unchanged; when one
    has, either the store reports an error and the response is the 422
    envelope with the error's text, or the response is 204 without a
    body and the store has lost exactly the rows with that id.  After a
    204 the same request gets the 404 envelope. *)
Theorem delete_question_contract
  (delete_fault : Question -> Store -> option string)
  (descr : Z -> string) (st : Store) (question_id : Z) :
  let r := serve descr (delete_question delete_fault question_id) st in
  (~ In question_id (map q_id (questions st)) ->
   r = (not_found_question question_id, st))
  /\ (In question_id (map q_id (questions st)) ->
      exists q,
        In q (questions st) /\ q_id q = question_id
        /\ match delete_fault q st with
           | Some orig =>
               r = (jsonify [("question_id", JInt question_id);
                             ("success", JBool false);
                             ("status", JInt 422);
                             ("message", JStr orig)] 422, st)
           | None =>
               r = ({| status_code := 204; body := None |},
                    {| categories := categories st;
                       questions :=
                         filter (fun x => negb (q_id x =? question_id))
                           (questions st) |})
               /\ forall x,
                    In x (questions (snd r))
                    <-> In x (questions st) /\ q_id x <> question_id
           end)
  /\ (status_code (fst r) = 204 ->
      serve descr (delete_question delete_fault question_id) (snd r)
      = (not_found_question question_id, snd r)).
Proof.
  intros r.
  assert (Hpresent : In question_id (map q_id (questions st)) ->
    exists q,
      In q (questions st) /\ q_id q = question_id
      /\ r = match delete_fault q st with
             | Some orig =>
                 (jsonify [("question_id", JInt question_id);
                           ("success", JBool false);
                           ("status", JInt 422);
                           ("message", JStr orig)] 422, st)
             | None =>
                 ({| status_code := 204; body := None |},
                  {| categories := categories st;
                     questions :=
                       filter (fun x => negb (q_id x =? question_id))
                         (questions st) |})
             end).
  { intros H. destruct (find_id_of_mem _ _ H) as (q & Hf & Hq & Hi).
    exists q. split; [exact Hq|]. split; [exact Hi|].
    subst r. unfold serve, delete_question, try_sql.
    cbv beta iota delta [bind ret first_question Question_delete].
    rewrite Hf, Hi. now destruct (delete_fault q st). }
  split; [|split].
  - apply delete_question_absent.
  - intros H. destruct (Hpresent H) as (q & Hq & Hi & Hr).
    exists q. split; [exact Hq|]. split; [exact Hi|].
    destruct (delete_fault q st); [exact Hr|].
    split; [exact Hr|]. intros x. rewrite Hr. cbn [snd questions].
    rewrite filter_In, negb_true_iff, Z.eqb_neq. tauto.
  - intros H204.
    destruct (in_dec Z.eq_dec question_id (map q_id (questions st)))
      as [Hin | Hout].
    + destruct (Hpresent Hin) as (q & _ & _ & Hr).
      destruct (delete_fault q st).
      * rewrite Hr in H204. discriminate.
      * apply delete_question_absent. rewrite Hr. cbn [snd questions].
        apply removed_id_absent.
    + subst r. rewrite (delete_question_absent _ _ _ _ Hout) in H204.
      discriminate.
Qed.

Lemma delete_question_contract_witness :
  let no_fault := fun (_ : Question) (_ : Store) => @None string in
  let r1 := serve (fun _ => "") (delete_question no_fault 1) test_store in
  serve (fun _ => "") (delete_question no_fault 1) (snd r1)
  = (not_found_question 1, snd r1).
Proof.
  apply (delete_question_contract (fun _ _ => None) (fun _ => "")
           test_store 1).
  reflexivity.
Defined.

Example delete_question_twice :
  let no_fault := fun (_ : Question) (_ : Store) => @None string in
  let r1 := serve (fun _ => "") (delete_question no_fault 1) test_store in
  let r2 := serve (fun _ => "") (delete_question no_fault 1) (snd r1) in
  status_code (fst r1) = 204 /\ body (fst r1) = None
  /\ map q_id (questions (snd r1)) = [2]
  /\ status_code (fst r2) = 404 /\ snd r2 = snd r1.
Proof. repeat split. Qed.

(** ** Search: [ILIKE] against substring search *)

Lemma is_meta_above_ascii (b0 b1 b2 b3 b4 b5 b6 : bool) :
  is_meta (Ascii b0 b1 b2 b3 b4 b5 b6 true) = false.
Proof. destruct b0, b1, b2, b3, b4, b5, b6; reflexivity. Qed.

Lemma is_meta_lower (locale : ascii -> ascii) (c : ascii) :
  is_meta (lower_char locale c) = is_meta c.
Proof.
  destruct c as [c0 c1 c2 c3 c4 c5 c6 [|]].
  - unfold lower_char. destruct (locale _) as [b0 b1 b2 b3 b4 b5 b6 b7].
    now rewrite !is_meta_above_ascii.
  - destruct c0, c1, c2, c3, c4, c5, c6; reflexivity.
Qed.

Lemma is_nul_above_ascii (b0 b1 b2 b3 b4 b5 b6 : bool) :
  Ascii.eqb (Ascii b0 b1 b2 b3 b4 b5 b6 true) zero = false.
Proof. destruct b0, b1, b2, b3, b4, b5, b6; reflexivity. Qed.

Lemma is_nul_lower (locale : ascii -> ascii) (c : ascii) :
  Ascii.eqb (lower_char locale c) zero = Ascii.eqb c zero.
Proof.
  destruct c as [c0 c1 c2 c3 c4 c5 c6 [|]].
  - unfold lower_char. destruct (locale _) as [b0 b1 b2 b3 b4 b5 b6 b7].
    now rewrite !is_nul_above_ascii.
  - destruct c0, c1, c2, c3, c4, c5, c6; reflexivity.
Qed.

Lemma meta_free_lower locale (s : string) :
  meta_free (lower locale s) = meta_free s.
Proof.
  induction s as [|c s IH]; simpl; [reflexivity|].
  now rewrite is_meta_lower, IH.
Qed.

Lemma has_nul_lower locale (s : string) :
  has_nul (lower locale s) = has_nul s.
Proof.
  induction s as [|c s IH]; simpl; [reflexivity|].
  now rewrite is_nul_lower, IH.
Qed.

Lemma lower_wrap locale (s : string) :
  lower locale ("%" ++ s ++ "%") = ("%" ++ lower locale s ++ "%")%string.
Proof.
  change (String "%" (lower locale (s ++ "%"))
          = String "%" (lower locale s ++ "%")).
  f_equal. induction s as [|c s IH]; simpl; [reflexivity|]. now rewrite IH.
Qed.

Lemma has_nul_wrap (s : string) : has_nul ("%" ++ s ++ "%") = has_nul s.
Proof.
  change (has_nul (s ++ "%") = has_nul s).
  induction s as [|c s IH]; simpl; [reflexivity|]. now rewrite IH.
Qed.

Lemma like_percent (p s : string) :
  like (String "%" p) s =
  like p s
  || match s with
     | EmptyString => false
     | String _ s' => like (String "%" p) s'
     end.
Proof. destruct s; reflexivity. Qed.

Lemma like_any (s : string) : like "%" s = true.
Proof.
  induction s as [|c s IH]; [reflexivity|].
  rewrite like_percent, IH. apply orb_true_r.
Qed.

Lemma like_literal (c : ascii) (p s : string) :
  is_meta c = false ->
  like (String c p) s =
  match s with
  | EmptyString => false
  | String x s' => Ascii.eqb x c && like p s'
  end.
Proof.
  unfold is_meta. intros H.
  apply orb_false_iff in H as [H H3]. apply orb_false_iff in H as [H1 H2].
  cbn [like]. rewrite H1, H2, H3. reflexivity.
Qed.

Lemma like_prefix (t s : string) :
  meta_free t = true -> like (t ++ "%") s = starts_with t s.
Proof.
  revert s. induction t as [|c t IH]; intros s H.
  - apply like_any.
  - simpl in H. apply andb_true_iff in H as [Hc Ht].
    apply negb_true_iff in Hc.
    change (String c t ++ "%")%string with (String c (t ++ "%")).
    rewrite (like_literal c _ s Hc). destruct s as [|x s]; simpl;
      [reflexivity|]. now rewrite IH.
Qed.

Lemma like_substring (t s : string) :
  meta_free t = true -> like ("%" ++ t ++ "%") s = substring_of t s.
Proof.
  intros H. change ("%" ++ t ++ "%")%string with (String "%" (t ++ "%")).
  induction s as [|x s IH].
  - rewrite like_percent, like_prefix by exact H. reflexivity.
  - rewrite like_percent, like_prefix, IH by exact H. reflexivity.
Qed.

(** For a term without [%], [_] and backslash, [ILIKE] on the pattern
    the handler builds is case-insensitive substring search. *)
Lemma ilike_contains_ci locale (text term : string) :
  meta_free term = true ->
  ilike locale text ("%" ++ term ++ "%") = contains_ci locale text term.
Proof.
  intros H. unfold ilike, contains_ci. rewrite lower_wrap.
  apply like_substring. now rewrite meta_free_lower.
Qed.

Lemma search_questions_run fq locale descr st d term :
  dict_get d "search_term" = JStr term ->
  has_nul term = false ->
  serve descr (search_questions fq locale (JDict d)) st =
  let found :=
    filter (fun q => ilike locale (q_question q) ("%" ++ term ++ "%"))
      (questions st) in
  (jsonify [("questions", JList (map fq found));
            ("total_questions",
             JInt (Z.of_nat (List.length (map fq found))));
            ("current_category", JNull);
            ("status", JInt 200)] 200, st).
Proof.
  intros H Hn. unfold serve, search_questions. cbn [attr_get].
  rewrite bind_ret, H.
  cbv beta iota delta [bind ret abort_if is_None str_concat3 search_query].
  rewrite has_nul_wrap, Hn. reflexivity.
Qed.

(** A term that holds NUL is refused by the driver, not by the handler. *)
Lemma search_questions_nul fq locale descr st d term :
  dict_get d "search_term" = JStr term ->
  has_nul term = true ->
  serve descr (search_questions fq locale (JDict d)) st
  = (get_500_error (descr 500), st).
Proof.
  intros H Hn. unfold serve, search_questions. cbn [attr_get].
  rewrite bind_ret, H.
  cbv beta iota delta [bind ret abort_if is_None str_concat3 search_query].
  rewrite has_nul_wrap, Hn. reflexivity.
Qed.



Example search_questions_country :
  field
    (fst (serve (fun _ => "")
            (search_questions Question_format (fun c => c)
               (JDict [("search_term", JStr "COUNTRY")])) test_store))
    "total_questions" = JInt 1.
Proof. reflexivity. Qed.


(** A search term that is not a string is not searched for at all:
    ["%" + 5] raises [TypeError], which the 500 handler answers. *)
Example search_questions_integer_term :
  status_code
    (fst (serve (fun _ => "")
            (search_questions Question_format (fun c => c)
               (JDict [("search_term", JInt 5)])) test_store)) = 500.
Proof. reflexivity. Qed.

(** A term with NUL in it is answered by the 500 handler. *)
Example search_questions_nul_term :
  status_code
    (fst (serve (fun _ => "")
            (search_questions Question_format (fun c => c)
               (JDict [("search_term", JStr (String "a" (String zero "b")))]))
            test_store)) = 500.
Proof. reflexivity. Qed.

(** In a locale that lower-cases [E-acute] (201) to [e-acute] (233), the
    term in one case finds the text in the other. *)
Example search_questions_latin_locale :
  let latin := fun c : ascii =>
                 if Ascii.eqb c (ascii_of_nat 201) then ascii_of_nat 233
                 else c in
  let st := {| categories := [];
               questions :=
                 [mkQuestion 1 (String (ascii_of_nat 233) "t" ++ "e")
                    "summer" 1 1] |} in
  field
    (fst (serve (fun _ => "")
            (search_questions Question_format latin
               (JDict [("search_term",
                        JStr (String (ascii_of_nat 201) "T"))])) st))
    "total_questions" = JInt 1.
Proof. reflexivity. Qed.

(** ** Read-only handlers *)

Lemma frame_ret {A} (a : A) : frame (ret a).
Proof. intros st. reflexivity. Qed.

Lemma frame_raise {A} (e : exn) : frame (@raise A e).
Proof. intros st. reflexivity. Qed.

Lemma frame_abort_if (c : bool) (code : Z) : frame (abort_if c code).
Proof. intros st. now destruct c. Qed.

Lemma frame_bind {A B} (m : M A) (k : A -> M B) :
  frame m -> (forall a, frame (k a)) -> frame (bind m k).
Proof.
  intros Hm Hk st. unfold bind. specialize (Hm st).
  destruct (m st) as [[a|e] st']; simpl in Hm; subst st'.
  - apply Hk.
  - reflexivity.
Qed.

Lemma frame_query_categories : frame query_categories.
Proof. intros st. reflexivity. Qed.

Lemma frame_query_questions p : frame (query_questions p).
Proof. intros st. reflexivity. Qed.

Lemma frame_first_question p : frame (first_question p).
Proof. intros st. reflexivity. Qed.

Lemma frame_first_category p : frame (first_category p).
Proof. intros st. reflexivity. Qed.

Lemma frame_attr_get v k : frame (attr_get v k).
Proof. intros st. now destruct v. Qed.

Lemma frame_str_concat3 l v r : frame (str_concat3 l v r).
Proof. intros st. now destruct v. Qed.

Lemma frame_choice rng l : frame (choice rng l).
Proof. intros st. now destruct l. Qed.

Lemma frame_not_in_previous ids p : frame (not_in_previous ids p).
Proof.
  induction ids as [|i ids IH]; simpl.
  - apply frame_ret.
  - destruct (py_in i p) as [e|seen].
    + apply frame_raise.
    + apply frame_bind; [exact IH|]. intros tl. apply frame_ret.
Qed.

Lemma frame_paginate_questions page per_page :
  frame (paginate_questions page per_page).
Proof.
  intros st. unfold paginate_questions. now destruct (_ <? _).
Qed.

Lemma frame_search_query locale pattern :
  frame (search_query locale pattern).
Proof.
  intros st. unfold search_query. now destruct (has_nul pattern).
Qed.

Create HintDb frame.

#[local] Hint Resolve frame_ret frame_raise frame_abort_if
  frame_query_categories frame_query_questions frame_first_question
  frame_first_category frame_attr_get frame_str_concat3 frame_choice
  frame_not_in_previous frame_paginate_questions frame_search_query : frame.

Ltac frame_step :=
  match goal with
  | |- frame (bind _ _) => apply frame_bind; [|intro]
  | |- frame (abort _) => apply frame_raise
  | |- frame (match ?x with _ => _ end) => destruct x
  | |- frame (let '(_, _) := ?x in _) => destruct x
  | |- frame _ => solve [auto with frame]
  end.

Lemma frame_get_categories fc : frame (get_categories fc).
Proof. unfold get_categories. repeat frame_step. Qed.

Lemma frame_get_questions fq fc page : frame (get_questions fq fc page).
Proof. unfold get_questions. repeat frame_step. Qed.

Lemma frame_get_questions_by_category fq category_id :
  frame (get_questions_by_category fq category_id).
Proof.
  unfold get_questions_by_category, category_questions. repeat frame_step.
Qed.

Lemma frame_search_questions fq locale body :
  frame (search_questions fq locale body).
Proof. unfold search_questions. repeat frame_step. Qed.

Lemma frame_play_quizzes fq body rng : frame (play_quizzes fq body rng).
Proof.
  unfold play_quizzes, all_ids, category_ids. repeat frame_step.
Qed.

Lemma frame_serve descr (handler : M Response) (st : Store) :
  frame handler -> snd (serve descr handler st) = st.
Proof.
  intros H. unfold serve. specialize (H st).
  now destruct (handler st) as [[r|e] st'].
Qed.

(** C10.  For every store and every input, the five read-only requests
    leave the store as it was, whether they succeed or fail: the
    category listing, the question listing, the questions of a category,
    the search and the quiz. *)
Theorem read_only_endpoints_keep_store
  (fq : Question -> json) (fc : Category -> json)
  (locale : ascii -> ascii) (descr : Z -> string)
  (st : Store) (page category_id : Z) (body : json) (rng : nat) :
  snd (serve descr (get_categories fc) st) = st
  /\ snd (serve descr (get_questions fq fc page) st) = st
  /\ snd (serve descr (get_questions_by_category fq category_id) st) = st
  /\ snd (serve descr (search_questions fq locale body) st) = st
  /\ snd (serve descr (play_quizzes fq body rng) st) = st.
Proof.
  split; [|split; [|split; [|split]]].
  - apply frame_serve, frame_get_categories.
  - apply frame_serve, frame_get_questions.
  - apply frame_serve, frame_get_questions_by_category.
  - apply frame_serve, frame_search_questions.
  - apply frame_serve, frame_play_quizzes.
Qed.

(** ** The response envelope *)

Lemma enveloped_success fields code :
  dict_get fields "success" = JBool true -> code < 400 ->
  enveloped (jsonify fields code).
Proof.
  intros Hs Hc. split; [now exists true|]. cbn [status_code jsonify]. lia.
Qed.

Lemma enveloped_failure fields code b :
  dict_get fields "success" = JBool b ->
  dict_has fields "status" = true -> dict_has fields "message" = true ->
  enveloped (jsonify fields code).
Proof. intros Hs Ht Hm. split; [now exists b | now split]. Qed.

Lemma answers_ret r : enveloped r -> answers_enveloped (ret r).
Proof. intros H st r' st' E. now injection E as <- _. Qed.

Lemma answers_raise e : answers_enveloped (raise e).
Proof. intros st r st' E. discriminate. Qed.

Lemma answers_bind {A} (m : M A) (k : A -> M Response) :
  (forall a, answers_enveloped (k a)) -> answers_enveloped (bind m k).
Proof.
  intros Hk st r st' E. unfold bind in E.
  destruct (m st) as [[a|e] st1]; [|discriminate].
  exact (Hk a st1 r st' E).
Qed.

Lemma answers_try_sql (m : M Response) (h : string -> M Response) :
  answers_enveloped m -> (forall orig, answers_enveloped (h orig)) ->
  answers_enveloped (try_sql m h).
Proof.
  intros Hm Hh st r st' E. unfold try_sql in E.
  destruct (m st) as [[a|e] st1] eqn:Em.
  - injection E as <- <-. exact (Hm st a st1 Em).
  - destruct e; try discriminate. exact (Hh orig st1 r st' E).
Qed.

Ltac envelope_step :=
  match goal with
  | |- answers_enveloped (bind _ _) => apply answers_bind; intro
  | |- answers_enveloped (try_sql _ _) => apply answers_try_sql; [|intro]
  | |- answers_enveloped (raise _) => apply answers_raise
  | |- answers_enveloped (abort _) => apply answers_raise
  | |- answers_enveloped (ret _) => apply answers_ret
  | |- answers_enveloped (match ?x with _ => _ end) => destruct x
  | |- answers_enveloped (let '(_, _) := ?x in _) => destruct x
  | |- enveloped (jsonify _ 200) => apply enveloped_success; [reflexivity|lia]
  | |- enveloped (jsonify _ 201) => apply enveloped_success; [reflexivity|lia]
  | |- enveloped (jsonify _ _) =>
      eapply enveloped_failure; reflexivity
  | |- enveloped {| status_code := _; body := None |} => exact I
  end.

Lemma handle_exception_enveloped descr e :
  enveloped (handle_exception descr e).
Proof.
  unfold handle_exception, get_400_error, get_404_error, get_422_error,
    get_500_error.
  destruct e; repeat envelope_step.
  destruct (code =? 400); [repeat envelope_step|].
  destruct (code =? 404); [repeat envelope_step|].
  destruct (code =? 422); [repeat envelope_step|].
  destruct (code =? 500); repeat envelope_step.
Qed.

(** C9, where it holds: every response of the other six handlers, and
    every response of an error handler, is enveloped. *)
Lemma envelope_outside_search
  (fq : Question -> json) (fc : Category -> json)
  (store_insert : QuestionInput -> Store -> insert_failure + Store)
  (delete_fault : Question -> Store -> option string)
  (page id : Z) (body : json) (rng : nat) :
  answers_enveloped (get_categories fc)
  /\ answers_enveloped (get_questions fq fc page)
  /\ answers_enveloped (get_questions_by_category fq id)
  /\ answers_enveloped (delete_question delete_fault id)
  /\ answers_enveloped (post_new_question store_insert body)
  /\ answers_enveloped (play_quizzes fq body rng)
  /\ forall descr e, enveloped (handle_exception descr e).
Proof.
  split; [|split; [|split; [|split; [|split; [|split]]]]].
  - unfold get_categories. repeat envelope_step.
  - unfold get_questions. repeat envelope_step.
  - unfold get_questions_by_category. repeat envelope_step.
  - unfold delete_question. repeat envelope_step.
  - unfold post_new_question. repeat envelope_step.
  - unfold play_quizzes. repeat envelope_step.
  - apply handle_exception_enveloped.
Qed.

(** C9, where it fails: the success response of the search has the keys
    [questions], [total_questions], [current_category] and [status], and
    no [success], whatever the store and the term (a string the driver
    takes, one without NUL). *)
Theorem search_questions_success_lacks_success
  (fq : Question -> json) (locale : ascii -> ascii) (descr : Z -> string)
  (st : Store) (term : string) :
  has_nul term = false ->
  let r := fst (serve descr
                  (search_questions fq locale
                     (JDict [("search_term", JStr term)]))
                  st) in
  status_code r = 200
  /\ has_field r "success" = false
  /\ has_field r "status" = true
  /\ ~ enveloped r.
Proof.
  intros Hn r. subst r.
  rewrite (search_questions_run fq locale descr st
             [("search_term", JStr term)] term eq_refl Hn).
  split; [reflexivity|]. split; [reflexivity|]. split; [reflexivity|].
  intros [[b Hb] _]. discriminate.
Qed.

Lemma search_questions_success_lacks_success_witness :
  has_field
    (fst (serve (fun _ => "")
            (search_questions Question_format (fun c => c)
               (JDict [("search_term", JStr "country")])) test_store))
    "success" = false.
Proof.
  apply (search_questions_success_lacks_success Question_format
           (fun c => c) (fun _ => "") test_store "country").
  reflexivity.
Defined.

(** * Further properties of the handlers *)

(** ** Outcomes of a computation *)

Lemma post_ret {A} (a : A) (P : A -> Prop) Q : P a -> post (ret a) P Q.
Proof. intros H st. exact H. Qed.

Lemma post_raise {A} (e : exn) (P : A -> Prop) (Q : exn -> Prop) :
  Q e -> post (@raise A e) P Q.
Proof. intros H st. exact H. Qed.

Lemma post_bind {A B} (m : M A) (k : A -> M B) P Q :
  post m (fun _ => True) Q -> (forall a, post (k a) P Q) ->
  post (bind m k) P Q.
Proof.
  intros Hm Hk st. unfold bind. specialize (Hm st).
  destruct (m st) as [[a|e] st']; simpl in *.
  - apply Hk.
  - exact Hm.
Qed.

Lemma post_try_sql {A} (m : M A) (h : string -> M A) P (Q : exn -> Prop) :
  post m P (fun e => match e with SQLAlchemyError _ => True | _ => Q e end) ->
  (forall orig, post (h orig) P Q) ->
  post (try_sql m h) P Q.
Proof.
  intros Hm Hh st. unfold try_sql. specialize (Hm st).
  destruct (m st) as [[a|e] st']; simpl in *; [exact Hm|].
  destruct e; try exact Hm. apply Hh.
Qed.

Lemma post_abort_if c code (Q : exn -> Prop) :
  Q (HTTPException code) -> post (abort_if c code) (fun _ => True) Q.
Proof. intros H st. destruct c; [exact H | exact I]. Qed.

Lemma post_attr_get v k (Q : exn -> Prop) :
  Q AttributeError -> post (attr_get v k) (fun _ => True) Q.
Proof. intros H st. destruct v; try exact H. exact I. Qed.

Lemma post_str_concat3 l v r (Q : exn -> Prop) :
  Q TypeError -> post (str_concat3 l v r) (fun _ => True) Q.
Proof. intros H st. destruct v; try exact H. exact I. Qed.

Lemma post_choice rng l (Q : exn -> Prop) :
  Q IndexError -> post (choice rng l) (fun _ => True) Q.
Proof. intros H st. destruct l; [exact H | exact I]. Qed.

Lemma post_not_in_previous ids p (Q : exn -> Prop) :
  Q TypeError -> post (not_in_previous ids p) (fun _ => True) Q.
Proof.
  intros H st.
  destruct (not_in_previous_cases ids p st) as [[l Hl] | Hl]; rewrite Hl;
    [exact I | exact H].
Qed.

Lemma post_query_categories Q : post query_categories (fun _ => True) Q.
Proof. intros st. exact I. Qed.

Lemma post_query_questions p Q : post (query_questions p) (fun _ => True) Q.
Proof. intros st. exact I. Qed.

Lemma post_first_question p Q : post (first_question p) (fun _ => True) Q.
Proof. intros st. exact I. Qed.

Lemma post_first_category p Q : post (first_category p) (fun _ => True) Q.
Proof. intros st. exact I. Qed.

Lemma post_Question_insert si row (Q : exn -> Prop) :
  (forall orig, Q (SQLAlchemyError orig)) -> Q ValueError ->
  post (Question_insert si row) (fun _ => True) Q.
Proof.
  intros H Hv st. unfold Question_insert.
  destruct (si row st) as [[orig|] | st']; [apply H | exact Hv | exact I].
Qed.

Lemma post_paginate_questions page per_page (Q : exn -> Prop) :
  (forall orig, Q (SQLAlchemyError orig)) ->
  post (paginate_questions page per_page) (fun _ => True) Q.
Proof.
  intros H st. unfold paginate_questions.
  destruct (_ <? _); [apply H | exact I].
Qed.

Lemma post_search_query locale pattern (Q : exn -> Prop) :
  Q ValueError -> post (search_query locale pattern) (fun _ => True) Q.
Proof.
  intros H st. unfold search_query.
  destruct (has_nul pattern); [exact H | exact I].
Qed.

Lemma post_Question_delete df q (Q : exn -> Prop) :
  (forall orig, Q (SQLAlchemyError orig)) ->
  post (Question_delete df q) (fun _ => True) Q.
Proof.
  intros H st. unfold Question_delete.
  destruct (df q st); [apply H | exact I].
Qed.

Lemma post_serve descr (m : M Response) (P : Response -> Prop) Q st :
  post m P Q -> (forall e, Q e -> P (handle_exception descr e)) ->
  P (fst (serve descr m st)).
Proof.
  intros Hm Hq. unfold serve. specialize (Hm st).
  destruct (m st) as [[r|e] st']; simpl in *; auto.
Qed.

Ltac post_side := cbn; solve [auto | intros; cbn; auto | lia].

Ltac post_step :=
  match goal with
  | |- post (bind _ _) _ _ => apply post_bind; [|intro]
  | |- post (try_sql _ _) _ _ => apply post_try_sql; [|intro]
  | |- post (abort_if _ _) _ _ => apply post_abort_if; post_side
  | |- post (abort _) _ _ => apply post_raise; post_side
  | |- post (raise _) _ _ => apply post_raise; post_side
  | |- post (attr_get _ _) _ _ => apply post_attr_get; post_side
  | |- post (str_concat3 _ _ _) _ _ => apply post_str_concat3; post_side
  | |- post (choice _ _) _ _ => apply post_choice; post_side
  | |- post (not_in_previous _ _) _ _ =>
      apply post_not_in_previous; post_side
  | |- post query_categories _ _ => apply post_query_categories
  | |- post (query_questions _) _ _ => apply post_query_questions
  | |- post (first_question _) _ _ => apply post_first_question
  | |- post (first_category _) _ _ => apply post_first_category
  | |- post (Question_insert _ _) _ _ =>
      apply post_Question_insert; post_side
  | |- post (paginate_questions _ _) _ _ =>
      apply post_paginate_questions; post_side
  | |- post (search_query _ _) _ _ =>
      apply post_search_query; post_side
  | |- post (Question_delete _ _) _ _ =>
      apply post_Question_delete; post_side
  | |- post (match ?x with _ => _ end) _ _ => destruct x
  | |- post (let '(_, _) := ?x in _) _ _ => destruct x
  end.


(** ** Status codes *)

Lemma status_of_abort descr code :
  status_code (handle_exception descr (HTTPException code)) = code.
Proof.
  unfold handle_exception.
  destruct (code =? 400) eqn:E1; [apply Z.eqb_eq in E1; now subst|].
  destruct (code =? 404) eqn:E2; [apply Z.eqb_eq in E2; now subst|].
  destruct (code =? 422) eqn:E3; [apply Z.eqb_eq in E3; now subst|].
  destruct (code =? 500) eqn:E4; [apply Z.eqb_eq in E4; now subst|].
  reflexivity.
Qed.

Lemma status_of_internal descr e :
  internal e -> status_code (handle_exception descr e) = 500.
Proof. destruct e; try reflexivity. intros []. Qed.


(** ** Agreement of the body with the HTTP status *)

Ltac coherent_json :=
  split;
  [ cbn; first [intros _; reflexivity | discriminate]
  | intros b; cbn; intros H;
    first [discriminate H | injection H as <-; reflexivity] ].

Lemma handle_exception_coherent descr e :
  coherent (handle_exception descr e).
Proof.
  destruct e; try coherent_json.
  unfold handle_exception.
  destruct (code =? 400); [coherent_json|].
  destruct (code =? 404); [coherent_json|].
  destruct (code =? 422); [coherent_json|].
  destruct (code =? 500); coherent_json.
Qed.

Ltac coherent_run :=
  repeat first
    [ post_step
    | match goal with
      | |- post (ret _) (fun _ => True) _ => apply post_ret; exact I
      | |- post (ret _) _ _ => apply post_ret; coherent_json
      end ].

(** In every response of every endpoint, for every store and every
    input, a [status] field of the JSON body equals the HTTP status code,
    and a boolean [success] field is [true] exactly when that code is
    below 400. *)
Theorem responses_coherent
  (fq : Question -> json) (fc : Category -> json)
  (store_insert : QuestionInput -> Store -> insert_failure + Store)
  (delete_fault : Question -> Store -> option string)
  (locale : ascii -> ascii)
  (descr : Z -> string) (st : Store) (page id : Z) (body : json)
  (rng : nat) :
  coherent (fst (serve descr (get_categories fc) st))
  /\ coherent (fst (serve descr (get_questions fq fc page) st))
  /\ coherent (fst (serve descr (get_questions_by_category fq id) st))
  /\ coherent (fst (serve descr (delete_question delete_fault id) st))
  /\ coherent (fst (serve descr (post_new_question store_insert body) st))
  /\ coherent (fst (serve descr (search_questions fq locale body) st))
  /\ coherent (fst (serve descr (play_quizzes fq body rng) st)).
Proof.
  split; [|split; [|split; [|split; [|split; [|split]]]]];
    apply (post_serve descr _ coherent (fun _ => True));
    try (intros e _; apply handle_exception_coherent).
  - unfold get_categories. coherent_run.
  - unfold get_questions. coherent_run.
  - unfold get_questions_by_category, category_questions. coherent_run.
  - unfold delete_question. coherent_run.
  - unfold post_new_question. coherent_run.
  - unfold search_questions. coherent_run.
  - unfold play_quizzes, all_ids, category_ids. coherent_run.
Qed.

(** ** Questions of a category *)

(** For every store and id: when no category has the id the response is
    the 404 envelope that carries the id back as [category_id]; when one
    has, the response is 200 and lists, unpaginated and in store order,
    exactly the questions whose [category_id] is the id, with
    [total_questions] their number and [current_category] the id. *)
Theorem get_questions_by_category_contract
  (fq : Question -> json) (descr : Z -> string) (st : Store)
  (category_id : Z) :
  let r := serve descr (get_questions_by_category fq category_id) st in
  ((forall c, In c (categories st) -> cat_id c <> category_id) ->
   r = (jsonify [("category_id", JInt category_id);
                 ("success", JBool false);
                 ("status", JInt 404);
                 ("message",
                  JStr "The category specified in the URL doesn't exist. Please resubmit with a correct category id.")]
          404, st))
  /\ ((exists c, In c (categories st) /\ cat_id c = category_id) ->
      let found :=
        filter (fun q => q_category_id q =? category_id) (questions st) in
      r = (jsonify [("questions", JList (map fq found));
                    ("total_questions", JInt (Z.of_nat (List.length found)));
                    ("current_category", JInt category_id);
                    ("success", JBool true)] 200, st)).
Proof.
  intros r. subst r. unfold serve, get_questions_by_category. split.
  - intros H.
    cbv beta iota delta [bind ret first_category].
    now rewrite (find_cat_none _ _ H).
  - intros (c & Hc & Hid).
    destruct (find_cat_of_mem _ _ Hc) as [c' Hc']. rewrite Hid in Hc'.
    assert (Hid' : cat_id c' = category_id).
    { apply find_some in Hc' as [_ E]. now apply Z.eqb_eq in E. }
    cbv beta iota delta [bind ret first_category category_questions
                         query_questions].
    rewrite Hc', Hid', length_map. reflexivity.
Qed.

Lemma get_questions_by_category_contract_witness :
  serve (fun _ => "") (get_questions_by_category Question_format 2)
    test_store
  = (jsonify [("questions", JList (map Question_format test_questions));
              ("total_questions", JInt 2);
              ("current_category", JInt 2);
              ("success", JBool true)] 200, test_store).
Proof.
  apply (get_questions_by_category_contract Question_format (fun _ => "")
           test_store 2).
  exists (mkCategory 2 "Math"). split; [|reflexivity].
  right. left. reflexivity.
Defined.

(** ** Pages of the listing *)

Lemma get_questions_run fq fc descr st page :
  (page - 1) * QUESTIONS_PER_PAGE <= BIGINT_MAX ->
  serve descr (get_questions fq fc page) st =
  if (page >? page_count st) && (page >? 1)
  then (get_404_error (descr 404), st)
  else (jsonify [("questions", JList (map fq (page_rows st page)));
                 ("categories", JList (map fc (categories st)));
                 ("current_category", JNull);
                 ("success", JBool true);
                 ("total_questions",
                  JInt (Z.of_nat (List.length (questions st))))] 200, st).
Proof.
  intros H. rewrite (get_questions_fits fq fc descr st page H).
  reflexivity.
Qed.

Lemma low_offset_fits (page : Z) :
  page <= 1 -> (page - 1) * QUESTIONS_PER_PAGE <= BIGINT_MAX.
Proof. unfold QUESTIONS_PER_PAGE, BIGINT_MAX. lia. Qed.

(** A page number of 1 or less (0 and the negative ones) is answered as
    page 1, and with status 200 whatever the store holds. *)
Theorem get_questions_low_page
  (fq : Question -> json) (fc : Category -> json) (descr : Z -> string)
  (st : Store) (page : Z) :
  page <= 1 ->
  serve descr (get_questions fq fc page) st
  = serve descr (get_questions fq fc 1) st
  /\ status_code (fst (serve descr (get_questions fq fc page) st)) = 200.
Proof.
  intros H.
  rewrite (get_questions_run fq fc descr st page (low_offset_fits page H)).
  rewrite (get_questions_run fq fc descr st 1
             (low_offset_fits 1 (Z.le_refl 1))).
  assert (E : (page >? 1) = false)
    by (rewrite Z.gtb_ltb; apply Z.ltb_ge; lia).
  rewrite E, andb_false_r. change (1 >? 1) with false.
  rewrite andb_false_r. split; [|reflexivity].
  unfold page_rows, paginate.
  destruct (page <? 1) eqn:L; [reflexivity|].
  apply Z.ltb_ge in L. now replace page with 1 by lia.
Qed.

Lemma get_questions_low_page_witness :
  serve (fun _ => "") (get_questions Question_format Category_format (-3))
    test_store
  = serve (fun _ => "") (get_questions Question_format Category_format 1)
      test_store.
Proof.
  apply (get_questions_low_page Question_format Category_format
           (fun _ => "") test_store (-3)).
  lia.
Defined.

Lemma firstn_add_split {A} (a b : nat) (l : list A) :
  firstn (a + b) l = (firstn a l ++ firstn b (skipn a l))%list.
Proof.
  revert l. induction a as [|a IH]; intros l; [reflexivity|].
  destruct l as [|x l]; simpl.
  - now rewrite firstn_nil.
  - now rewrite IH.
Qed.

Lemma slices_concat {A} (rows : list A) (k : nat) :
  List.concat (map (fun p => firstn 10 (skipn (10 * (p - 1)) rows)) (seq 1 k))
  = firstn (10 * k) rows.
Proof.
  induction k as [|k IH]; [reflexivity|].
  rewrite seq_S, map_app, concat_app, IH. cbn [map List.concat].
  rewrite app_nil_r.
  replace (10 * (1 + k - 1))%nat with (10 * k)%nat by lia.
  replace (10 * S k)%nat with (10 * k + 10)%nat by lia.
  symmetry. apply firstn_add_split.
Qed.

Lemma page_rows_slice st (page : Z) :
  1 <= page ->
  page_rows st page
  = firstn 10 (skipn (10 * (Z.to_nat page - 1)) (questions st)).
Proof.
  intros H. unfold page_rows, paginate. cbn [items].
  destruct (page <? 1) eqn:L; [apply Z.ltb_lt in L; lia|].
  change (Z.to_nat QUESTIONS_PER_PAGE) with 10%nat.
  f_equal. f_equal. unfold QUESTIONS_PER_PAGE. lia.
Qed.

Lemma page_count_bounds st :
  Z.of_nat (List.length (questions st)) <= 10 * page_count st
  < Z.of_nat (List.length (questions st)) + 10.
Proof. apply (pages_is_ceiling 1 (questions st)). Qed.

(** The pages of the listing partition the questions: for every store,
    pages 1 to [pages] put end to end are the questions of the store, each
    once and in store order; each of these pages holds at least one and
    at most ten questions and, its offset fitting a [bigint] (as all do
    in a table of fewer than 2^63 rows), is served with status 200. *)
Theorem get_questions_pages_partition
  (fq : Question -> json) (fc : Category -> json) (descr : Z -> string)
  (st : Store) :
  List.concat (map (fun p => page_rows st (Z.of_nat p))
            (seq 1 (Z.to_nat (page_count st))))
  = questions st
  /\ forall page,
       1 <= page <= page_count st ->
       ((page - 1) * QUESTIONS_PER_PAGE <= BIGINT_MAX ->
        serve descr (get_questions fq fc page) st
        = (jsonify [("questions", JList (map fq (page_rows st page)));
                    ("categories", JList (map fc (categories st)));
                    ("current_category", JNull);
                    ("success", JBool true);
                    ("total_questions",
                     JInt (Z.of_nat (List.length (questions st))))] 200, st))
       /\ (0 < List.length (page_rows st page) <= 10)%nat
       /\ (Z.of_nat (List.length (questions st)) <= BIGINT_MAX ->
           (page - 1) * QUESTIONS_PER_PAGE <= BIGINT_MAX).
Proof.
  pose proof (page_count_bounds st) as Hb. split.
  - rewrite (map_ext_in _
               (fun p => firstn 10 (skipn (10 * (p - 1)) (questions st)))).
    + rewrite slices_concat. apply firstn_all2. lia.
    + intros p Hp. apply in_seq in Hp.
      rewrite page_rows_slice by lia. now rewrite Nat2Z.id.
  - intros page Hp. split.
    + intros Hfit. rewrite (get_questions_run fq fc descr st page Hfit).
      assert (E : (page >? page_count st) = false)
        by (rewrite Z.gtb_ltb; apply Z.ltb_ge; lia).
      now rewrite E.
    + split.
      * rewrite page_rows_slice by lia.
        rewrite length_firstn, length_skipn. lia.
      * unfold QUESTIONS_PER_PAGE. lia.
Qed.

Lemma get_questions_pages_partition_witness :
  (0 < List.length (page_rows test_store 1) <= 10)%nat.
Proof.
  apply (get_questions_pages_partition Question_format Category_format
           (fun _ => "") test_store).
  vm_compute. split; discriminate.
Defined.

(** ** Quiz play: how [previous_questions] is read *)

Lemma remaining_ext (pool : list Z) (p1 p2 : list json) :
  (forall i, In i pool -> existsb (int_eq i) p1 = existsb (int_eq i) p2) ->
  remaining pool p1 = remaining pool p2.
Proof.
  intros H. unfold remaining. apply filter_ext_in.
  intros i Hi. now rewrite (H i Hi).
Qed.

(** Only membership in [previous_questions] counts: for a valid scope,
    two bodies with the same [quiz_category] whose lists hold the same
    ids of the pool, in whatever order and however often, get the same
    response. *)
Theorem play_quizzes_previous_as_set
  (fq : Question -> json) (descr : Z -> string) (st : Store)
  (d1 d2 qc : list (string * json)) (t : json) (pool : list Z)
  (p1 p2 : list json) (rng : nat) :
  dict_get d1 "previous_questions" = JList p1 ->
  dict_get d2 "previous_questions" = JList p2 ->
  dict_get d1 "quiz_category" = JDict qc ->
  dict_get d2 "quiz_category" = JDict qc ->
  dict_get qc "type" = t ->
  in_scope st t pool ->
  (forall i, In i pool -> existsb (int_eq i) p1 = existsb (int_eq i) p2) ->
  serve descr (play_quizzes fq (JDict d1) rng) st
  = serve descr (play_quizzes fq (JDict d2) rng) st.
Proof.
  intros H1 H2 Hq1 Hq2 Ht Hs Hmem. unfold serve.
  rewrite (play_quizzes_with_list fq st d1 qc t pool p1 rng H1 Hq1 Ht Hs).
  rewrite (play_quizzes_with_list fq st d2 qc t pool p2 rng H2 Hq2 Ht Hs).
  now rewrite (remaining_ext pool p1 p2 Hmem).
Qed.

Lemma play_quizzes_previous_as_set_witness :
  serve (fun _ => "") (play_quizzes Question_format
    (JDict [("previous_questions", JList [JInt 1]);
            ("quiz_category", JDict [("type", JStr "click")])]) 3)
    test_store
  = serve (fun _ => "") (play_quizzes Question_format
      (JDict [("quiz_category", JDict [("type", JStr "click")]);
              ("previous_questions",
               JList [JInt 7; JBool true; JInt 1])]) 3)
      test_store.
Proof.
  apply (play_quizzes_previous_as_set Question_format (fun _ => "")
           test_store _ _ [("type", JStr "click")] (JStr "click") [1; 2]
           [JInt 1] [JInt 7; JBool true; JInt 1] 3);
    try reflexivity.
  - exact (scope_all test_store).
  - intros i [<- | [<- | []]]; reflexivity.
Defined.

Lemma filter_shrinks {A} (f : A -> bool) (l : list A) (x : A) :
  In x l -> f x = false ->
  (List.length (filter f l) < List.length l)%nat.
Proof.
  induction l as [|y l IH]; simpl; [easy|].
  intros [-> | Hin] Hx.
  - rewrite Hx. pose proof (filter_length_le f l). lia.
  - specialize (IH Hin Hx). destruct (f y); simpl; lia.
Qed.

Lemma remaining_snoc (pool : list Z) (prev : list json) (x : Z) :
  remaining pool (prev ++ [JInt x])
  = filter (fun i => negb (i =? x)) (remaining pool prev).
Proof.
  unfold remaining. induction pool as [|i pool IH]; simpl; [reflexivity|].
  rewrite existsb_app. cbn [existsb int_eq]. rewrite orb_false_r, negb_orb.
  destruct (existsb (int_eq i) prev); simpl; [exact IH|].
  destruct (i =? x); simpl; now rewrite IH.
Qed.

(** A quiz makes progress: for a valid scope and a list
    [previous_questions] that leaves something to ask, the response
    serves a question, and once its id is added to [previous_questions]
    the ids left to ask are strictly fewer and no longer hold that id. *)
Theorem play_quizzes_progress
  (fq : Question -> json) (descr : Z -> string) (st : Store)
  (d qc : list (string * json)) (t : json) (pool : list Z)
  (prev : list json) (rng : nat) :
  dict_get d "previous_questions" = JList prev ->
  dict_get d "quiz_category" = JDict qc ->
  dict_get qc "type" = t ->
  in_scope st t pool ->
  remaining pool prev <> [] ->
  exists q,
    serve descr (play_quizzes fq (JDict d) rng) st
    = (quiz_response (fq q) pool, st)
    /\ (List.length (remaining pool (prev ++ [JInt (q_id q)]))
        < List.length (remaining pool prev))%nat
    /\ ~ In (q_id q) (remaining pool (prev ++ [JInt (q_id q)])).
Proof.
  intros Hp Hq Ht Hs Hne.
  destruct (quiz_answer_pick fq rng pool (remaining pool prev) st Hne)
    as (q & Hin & Hrem & Hans).
  { intros i Hi. apply remaining_spec in Hi as [Hi _].
    now apply (in_scope_incl st t pool Hs). }
  exists q. split; [|split].
  - unfold serve.
    rewrite (play_quizzes_with_list fq st d qc t pool prev rng Hp Hq Ht Hs).
    now rewrite Hans.
  - rewrite remaining_snoc.
    apply (filter_shrinks _ _ (q_id q) Hrem). now rewrite Z.eqb_refl.
  - rewrite remaining_snoc, filter_In, Z.eqb_refl. intros [_ H].
    discriminate.
Qed.

Lemma play_quizzes_progress_witness :
  exists q,
    serve (fun _ => "") (play_quizzes Question_format
      (JDict [("previous_questions", JList [JInt 1]);
              ("quiz_category", JDict [("type", JStr "click")])]) 0)
      test_store
    = (quiz_response (Question_format q) [1; 2], test_store)
    /\ lt (List.length (remaining [1; 2] ([JInt 1] ++ [JInt (q_id q)])))
         (List.length (remaining [1; 2] [JInt 1]))
    /\ ~ In (q_id q) (remaining [1; 2] ([JInt 1] ++ [JInt (q_id q)])).
Proof.
  apply (play_quizzes_progress Question_format (fun _ => "") test_store
           [("previous_questions", JList [JInt 1]);
            ("quiz_category", JDict [("type", JStr "click")])]
           [("type", JStr "click")] (JStr "click") [1; 2] [JInt 1] 0);
    try reflexivity.
  - exact (scope_all test_store).
  - discriminate.
Defined.

Lemma NoDup_map_inj {A B} (f : A -> B) (l : list A) (a b : A) :
  NoDup (map f l) -> In a l -> In b l -> f a = f b -> a = b.
Proof.
  induction l as [|x l IH]; simpl; [easy|].
  intros Hnd Ha Hb E. inversion Hnd as [|y m Hx Hl]; subst.
  destruct Ha as [-> | Ha], Hb as [-> | Hb]; try reflexivity.
  - elim Hx. rewrite E. now apply in_map.
  - elim Hx. rewrite <- E. now apply in_map.
  - now apply IH.
Qed.

(** With question ids unique in the store (they are the primary key), a
    quiz scoped to an existing category serves only questions of that
    category. *)
Theorem play_quizzes_serves_from_category
  (fq : Question -> json) (descr : Z -> string) (st : Store)
  (d qc td : list (string * json)) (cid : Z) (c : Category)
  (prev : list json) (rng : nat) :
  NoDup (map q_id (questions st)) ->
  dict_get d "previous_questions" = JList prev ->
  dict_get d "quiz_category" = JDict qc ->
  dict_get qc "type" = JDict td ->
  dict_get td "id" = JInt cid ->
  In c (categories st) ->
  cat_id c = cid ->
  let pool :=
    map q_id (filter (fun q => q_category_id q =? cid) (questions st)) in
  remaining pool prev <> [] ->
  exists q,
    In q (questions st) /\ q_category_id q = cid
    /\ serve descr (play_quizzes fq (JDict d) rng) st
       = (quiz_response (fq q) pool, st).
Proof.
  intros Hnd Hp Hq Ht Hid Hc Hcid pool Hne.
  pose proof (scope_category st td cid c Hid Hc Hcid) as Hs.
  destruct (quiz_answer_pick fq rng pool (remaining pool prev) st Hne)
    as (q & Hin & Hrem & Hans).
  { intros i Hi. apply remaining_spec in Hi as [Hi _].
    now apply (in_scope_incl st _ pool Hs). }
  exists q. split; [exact Hin|]. split.
  - apply remaining_spec in Hrem as [Hpool _].
    apply in_map_iff in Hpool as (q' & Hq' & Hf).
    apply filter_In in Hf as [Hin' Hcat]. apply Z.eqb_eq in Hcat.
    now rewrite <- (NoDup_map_inj q_id _ q' q Hnd Hin' Hin Hq').
  - unfold serve.
    rewrite (play_quizzes_with_list fq st d qc _ pool prev rng
               Hp Hq Ht Hs).
    now rewrite Hans.
Qed.

Lemma play_quizzes_serves_from_category_witness :
  exists q,
    In q test_questions /\ q_category_id q = 2
    /\ serve (fun _ => "") (play_quizzes Question_format
         (JDict [("previous_questions", JList [JInt 1]);
                 ("quiz_category",
                  JDict [("type", JDict [("id", JInt 2)])])]) 5)
         test_store
       = (quiz_response (Question_format q) [1; 2], test_store).
Proof.
  apply (play_quizzes_serves_from_category Question_format (fun _ => "")
           test_store
           [("previous_questions", JList [JInt 1]);
            ("quiz_category", JDict [("type", JDict [("id", JInt 2)])])]
           [("type", JDict [("id", JInt 2)])] [("id", JInt 2)] 2
           (mkCategory 2 "Math") [JInt 1] 5);
    try reflexivity.
  - repeat constructor; simpl; intuition discriminate.
  - right. left. reflexivity.
  - discriminate.
Defined.

(** With nothing in the pool the quiz is over at once: for a valid scope
    without questions, every [previous_questions] other than [null], a
    list or not, gets [question = null] and [questions_per_play = 0]. *)
Theorem play_quizzes_empty_pool
  (fq : Question -> json) (descr : Z -> string) (st : Store)
  (d qc : list (string * json)) (t : json) (rng : nat) :
  dict_get d "quiz_category" = JDict qc ->
  dict_get qc "type" = t ->
  in_scope st t [] ->
  is_None (dict_get d "previous_questions") = false ->
  serve descr (play_quizzes fq (JDict d) rng) st
  = (jsonify [("question", JNull);
              ("questions_per_play", JInt 0);
              ("success", JBool true);
              ("status", JInt 200)] 200, st).
Proof.
  intros Hq Ht Hs Hp. unfold serve.
  now rewrite (play_quizzes_in_scope fq d qc t [] rng st Hq Ht Hs Hp).
Qed.

Lemma play_quizzes_empty_pool_witness :
  serve (fun _ => "") (play_quizzes Question_format
    (JDict [("previous_questions", JInt 7);
            ("quiz_category", JDict [("type", JDict [("id", JInt 3)])])])
    0) test_store
  = (jsonify [("question", JNull);
              ("questions_per_play", JInt 0);
              ("success", JBool true);
              ("status", JInt 200)] 200, test_store).
Proof.
  apply (play_quizzes_empty_pool Question_format (fun _ => "") test_store
           [("previous_questions", JInt 7);
            ("quiz_category", JDict [("type", JDict [("id", JInt 3)])])]
           [("type", JDict [("id", JInt 3)])] (JDict [("id", JInt 3)]) 0);
    try reflexivity.
  exact (scope_category test_store [("id", JInt 3)] 3
           (mkCategory 3 "Science") eq_refl
           (or_intror (or_intror (or_introl eq_refl))) eq_refl).
Defined.

(** A [previous_questions] that is a number, a boolean or a string is
    not refused by the validation: with a valid scope that has questions,
    the membership test raises [TypeError] and the response is that of
    the 500 handler. *)
Theorem play_quizzes_previous_not_iterable
  (fq : Question -> json) (descr : Z -> string) (st : Store)
  (d qc : list (string * json)) (t : json) (pool : list Z) (rng : nat) :
  dict_get d "quiz_category" = JDict qc ->
  dict_get qc "type" = t ->
  in_scope st t pool ->
  pool <> [] ->
  is_None (dict_get d "previous_questions") = false ->
  (forall l, dict_get d "previous_questions" <> JList l) ->
  (forall o, dict_get d "previous_questions" <> JDict o) ->
  serve descr (play_quizzes fq (JDict d) rng) st
  = (get_500_error (descr 500), st).
Proof.
  intros Hq Ht Hs Hne Hp Hl Ho. unfold serve.
  rewrite (play_quizzes_in_scope fq d qc t pool rng st Hq Ht Hs Hp).
  destruct pool as [|i rest]; [easy|].
  destruct (dict_get d "previous_questions") as [| | | | |l|o];
    try reflexivity; try discriminate.
  - now elim (Hl l).
  - now elim (Ho o).
Qed.

Lemma play_quizzes_previous_not_iterable_witness :
  serve (fun _ => "") (play_quizzes Question_format
    (JDict [("previous_questions", JStr "1");
            ("quiz_category", JDict [("type", JStr "click")])]) 0)
    test_store
  = (get_500_error "", test_store).
Proof.
  apply (play_quizzes_previous_not_iterable Question_format (fun _ => "")
           test_store
           [("previous_questions", JStr "1");
            ("quiz_category", JDict [("type", JStr "click")])]
           [("type", JStr "click")] (JStr "click") [1; 2] 0);
    try reflexivity; try discriminate.
  exact (scope_all test_store).
Defined.

Lemma not_in_previous_dict (ids : list Z) (o : list (string * json)) st :
  not_in_previous ids (JDict o) st = (Ret ids, st).
Proof.
  induction ids as [|i ids IH]; simpl; [reflexivity|].
  unfold bind. now rewrite IH.
Qed.

(** A JSON object as [previous_questions] excludes nothing: for a valid
    scope the response is the one an empty list gets. *)
Theorem play_quizzes_previous_object
  (fq : Question -> json) (descr : Z -> string) (st : Store)
  (d d' qc o : list (string * json)) (t : json) (pool : list Z)
  (rng : nat) :
  dict_get d "previous_questions" = JDict o ->
  dict_get d' "previous_questions" = JList [] ->
  dict_get d "quiz_category" = JDict qc ->
  dict_get d' "quiz_category" = JDict qc ->
  dict_get qc "type" = t ->
  in_scope st t pool ->
  serve descr (play_quizzes fq (JDict d) rng) st
  = serve descr (play_quizzes fq (JDict d') rng) st.
Proof.
  intros Hp Hp' Hq Hq' Ht Hs. unfold serve.
  rewrite (play_quizzes_in_scope fq d qc t pool rng st Hq Ht Hs)
    by now rewrite Hp.
  rewrite (play_quizzes_in_scope fq d' qc t pool rng st Hq' Ht Hs)
    by now rewrite Hp'.
  rewrite Hp, Hp'.
  rewrite (bind_run _ _ _ _ _ (not_in_previous_dict pool o st)).
  rewrite (bind_run _ _ _ _ _ (not_in_previous_list pool [] st)).
  unfold remaining. cbn [existsb negb]. now rewrite filter_true.
Qed.

Lemma play_quizzes_previous_object_witness :
  serve (fun _ => "") (play_quizzes Question_format
    (JDict [("previous_questions", JDict [("1", JInt 1)]);
            ("quiz_category", JDict [("type", JStr "click")])]) 1)
    test_store
  = serve (fun _ => "") (play_quizzes Question_format
      (JDict [("previous_questions", JList []);
              ("quiz_category", JDict [("type", JStr "click")])]) 1)
      test_store.
Proof.
  apply (play_quizzes_previous_object Question_format (fun _ => "")
           test_store _ _ [("type", JStr "click")] [("1", JInt 1)]
           (JStr "click") [1; 2] 1);
    try reflexivity.
  exact (scope_all test_store).
Defined.

(** ** Creation: a body that is not an object *)

(** When the body is not a JSON object (a list, a string, a number,
    [null] for no JSON at all), [body.get] raises [AttributeError], which
    the [except] clause does not catch: the response is that of the 500
    handler, the row is never handed to the store, and the store is
    unchanged, whatever the store would have done with it. *)
Theorem post_new_question_not_object
  (store_insert : QuestionInput -> Store -> insert_failure + Store)
  (descr : Z -> string) (body : json) (st : Store) :
  is_dict body = false ->
  serve descr (post_new_question store_insert body) st
  = (get_500_error (descr 500), st).
Proof. intros H. now destruct body. Qed.

Lemma post_new_question_not_object_witness :
  serve (fun _ => "")
    (post_new_question (fun _ _ => inr (mkStore [] []))
       (JList [JStr "2+2"; JStr "4"])) test_store
  = (get_500_error "", test_store).
Proof.
  apply (post_new_question_not_object (fun _ _ => inr (mkStore [] []))
           (fun _ => "") (JList [JStr "2+2"; JStr "4"]) test_store).
  reflexivity.
Defined.

(** ** Search: edge cases of the term *)

Lemma substring_of_empty (s : string) : substring_of "" s = true.
Proof. destruct s; reflexivity. Qed.

(** The empty search term matches everything: the response lists every
    question of the store, in store order, and [total_questions] is their
    number. *)
Theorem search_questions_empty_term
  (fq : Question -> json) (locale : ascii -> ascii) (descr : Z -> string)
  (st : Store) (d : list (string * json)) :
  dict_get d "search_term" = JStr "" ->
  serve descr (search_questions fq locale (JDict d)) st
  = (jsonify [("questions", JList (map fq (questions st)));
              ("total_questions",
               JInt (Z.of_nat (List.length (questions st))));
              ("current_category", JNull);
              ("status", JInt 200)] 200, st).
Proof.
  intros H. rewrite (search_questions_run fq locale descr st d "" H eq_refl).
  cbv zeta.
  rewrite (filter_ext _ (fun _ => true)), filter_true, length_map;
    [reflexivity|].
  intros q. rewrite (ilike_contains_ci locale (q_question q) "" eq_refl).
  apply substring_of_empty.
Qed.

Lemma search_questions_empty_term_witness :
  serve (fun _ => "")
    (search_questions Question_format (fun c => c)
       (JDict [("search_term", JStr "")]))
    test_store
  = (jsonify [("questions", JList (map Question_format test_questions));
              ("total_questions", JInt 2);
              ("current_category", JNull);
              ("status", JInt 200)] 200, test_store).
Proof.
  apply (search_questions_empty_term Question_format (fun c => c)
           (fun _ => "") test_store [("search_term", JStr "")]).
  reflexivity.
Defined.

(** The search ignores the letter case of the term, metacharacters or
    not: two terms that are equal once lower-cased get the same
    response. *)
Theorem search_questions_term_case
  (fq : Question -> json) (locale : ascii -> ascii) (descr : Z -> string)
  (st : Store) (d1 d2 : list (string * json)) (t1 t2 : string) :
  dict_get d1 "search_term" = JStr t1 ->
  dict_get d2 "search_term" = JStr t2 ->
  lower locale t1 = lower locale t2 ->
  serve descr (search_questions fq locale (JDict d1)) st
  = serve descr (search_questions fq locale (JDict d2)) st.
Proof.
  intros H1 H2 E.
  assert (Hn : has_nul t1 = has_nul t2).
  { now rewrite <- (has_nul_lower locale t1), E, has_nul_lower. }
  destruct (has_nul t2) eqn:N2.
  - rewrite (search_questions_nul fq locale descr st d1 t1 H1 Hn).
    now rewrite (search_questions_nul fq locale descr st d2 t2 H2 N2).
  - rewrite (search_questions_run fq locale descr st d1 t1 H1 Hn).
    rewrite (search_questions_run fq locale descr st d2 t2 H2 N2).
    cbv zeta.
    rewrite (filter_ext
               (fun q => ilike locale (q_question q) ("%" ++ t1 ++ "%"))
               (fun q => ilike locale (q_question q) ("%" ++ t2 ++ "%")));
      [reflexivity|].
    intros q. unfold ilike. now rewrite !lower_wrap, E.
Qed.

Lemma search_questions_term_case_witness :
  serve (fun _ => "")
    (search_questions Question_format (fun c => c)
       (JDict [("search_term", JStr "Borders the US")])) test_store
  = serve (fun _ => "")
      (search_questions Question_format (fun c => c)
         (JDict [("search_term", JStr "bORDERS THE us")])) test_store.
Proof.
  apply (search_questions_term_case Question_format (fun c => c)
           (fun _ => "") test_store _ _ "Borders the US" "bORDERS THE us");
    reflexivity.
Defined.

(** A search term that is present but not a string (a number, a
    boolean, a list, an object) is not refused as a bad request: the
    concatenation raises [TypeError] and the response is that of the 500
    handler, whatever the store holds. *)
Theorem search_questions_term_not_string
  (fq : Question -> json) (locale : ascii -> ascii) (descr : Z -> string)
  (st : Store) (d : list (string * json)) :
  is_None (dict_get d "search_term") = false ->
  (forall s, dict_get d "search_term" <> JStr s) ->
  serve descr (search_questions fq locale (JDict d)) st
  = (get_500_error (descr 500), st).
Proof.
  intros Hn Hs. unfold serve, search_questions. cbn [attr_get].
  rewrite bind_ret.
  destruct (dict_get d "search_term") eqn:E; try reflexivity;
    try discriminate.
  now elim (Hs s).
Qed.

Lemma search_questions_term_not_string_witness :
  serve (fun _ => "")
    (search_questions Question_format (fun c => c)
       (JDict [("search_term", JList [JStr "country"])])) test_store
  = (get_500_error "", test_store).
Proof.
  apply (search_questions_term_not_string Question_format (fun c => c)
           (fun _ => "") test_store
           [("search_term", JList [JStr "country"])]).
  - reflexivity.
  - discriminate.
Defined.

(** ** Deletion and what follows it *)

Lemma delete_question_present df descr st question_id :
  In question_id (map q_id (questions st)) ->
  exists q,
    In q (questions st) /\ q_id q = question_id
    /\ serve descr (delete_question df question_id) st
       = match df q st with
         | Some orig =>
             (jsonify [("question_id", JInt question_id);
                       ("success", JBool false);
                       ("status", JInt 422);
                       ("message", JStr orig)] 422, st)
         | None =>
             ({| status_code := 204; body := None |},
              {| categories := categories st;
                 questions :=
                   filter (fun x => negb (q_id x =? question_id))
                     (questions st) |})
         end.
Proof.
  intros H. destruct (find_id_of_mem _ _ H) as (q & Hf & Hq & Hi).
  exists q. split; [exact Hq|]. split; [exact Hi|].
  unfold serve, delete_question, try_sql.
  cbv beta iota delta [bind ret first_question Question_delete].
  rewrite Hf, Hi. now destruct (df q st).
Qed.

Lemma delete_question_204 df descr st question_id :
  status_code (fst (serve descr (delete_question df question_id) st)) = 204 ->
  In question_id (map q_id (questions st))
  /\ snd (serve descr (delete_question df question_id) st)
     = {| categories := categories st;
          questions :=
            filter (fun x => negb (q_id x =? question_id)) (questions st) |}.
Proof.
  intros H.
  destruct (in_dec Z.eq_dec question_id (map q_id (questions st)))
    as [Hin | Hout].
  - split; [exact Hin|].
    destruct (delete_question_present df descr st question_id Hin)
      as (q & _ & _ & Hr).
    rewrite Hr in *. destruct (df q st); [discriminate | reflexivity].
  - rewrite (delete_question_absent df descr st question_id Hout) in H.
    discriminate.
Qed.

Lemma unique_ids_filter (rows : list Question) (keep : Question -> bool) :
  NoDup (map q_id rows) -> NoDup (map q_id (filter keep rows)).
Proof.
  intros Hnd. induction rows as [|r rows IH]; simpl; [constructor|].
  simpl in Hnd. apply NoDup_cons_iff in Hnd as [Hr Hrows].
  destruct (keep r); simpl; [|now apply IH].
  apply NoDup_cons; [|now apply IH].
  intros Hin. apply Hr. apply in_map_iff in Hin as (x & Hx & Hf).
  apply filter_In in Hf as [Hf _]. rewrite <- Hx. now apply in_map.
Qed.

Lemma filter_out_unique (rows : list Question) (i : Z) :
  NoDup (map q_id rows) -> In i (map q_id rows) ->
  S (List.length (filter (fun x => negb (q_id x =? i)) rows))
  = List.length rows.
Proof.
  induction rows as [|r rows IH]; simpl; [easy|].
  intros Hnd Hin. inversion Hnd as [|y m Hr Hl]; subst.
  destruct (q_id r =? i) eqn:E; simpl.
  - apply Z.eqb_eq in E. subst i. f_equal.
    rewrite (filter_ext_in _ (fun _ => true)), filter_true; [reflexivity|].
    intros x Hx. apply negb_true_iff, Z.eqb_neq. intros Ex.
    apply Hr. rewrite <- Ex. now apply in_map.
  - f_equal. apply IH; [exact Hl|].
    destruct Hin as [Hin | Hin]; [|exact Hin].
    apply Z.eqb_neq in E. contradiction.
Qed.

Lemma slice_incl {A} (n m : nat) (l : list A) (x : A) :
  In x (firstn n (skipn m l)) -> In x l.
Proof.
  intros H. rewrite <- (firstn_skipn m l). apply in_or_app. right.
  rewrite <- (firstn_skipn n (skipn m l)). apply in_or_app. now left.
Qed.

(** Deletion keeps the store well-formed and shows in the listing: with
    question ids unique, after a 204 the ids are still unique, the
    categories are untouched, the listing's [total_questions] is one
    less than before, and no page of the listing holds a question with
    the deleted id. *)
Theorem delete_question_then_list
  (delete_fault : Question -> Store -> option string)
  (fq : Question -> json) (fc : Category -> json) (descr : Z -> string)
  (st : Store) (question_id : Z) :
  NoDup (map q_id (questions st)) ->
  status_code
    (fst (serve descr (delete_question delete_fault question_id) st)) = 204 ->
  let st' :=
    snd (serve descr (delete_question delete_fault question_id) st) in
  NoDup (map q_id (questions st'))
  /\ categories st' = categories st
  /\ field (fst (serve descr (get_questions fq fc 1) st')) "total_questions"
     = JInt (Z.of_nat (List.length (questions st)) - 1)
  /\ forall page q, In q (page_rows st' page) -> q_id q <> question_id.
Proof.
  intros Hnd H204 st'.
  destruct (delete_question_204 _ _ _ _ H204) as [Hin Hst].
  subst st'. rewrite Hst. cbn [questions categories].
  split; [now apply unique_ids_filter|]. split; [reflexivity|]. split.
  - rewrite (get_questions_run fq fc _ _ 1
               (low_offset_fits 1 (Z.le_refl 1))).
    change (1 >? 1) with false.
    rewrite andb_false_r. cbn [fst field jsonify body dict_get].
    cbn [String.eqb Ascii.eqb Bool.eqb questions]. f_equal.
    rewrite <- (filter_out_unique (questions st) question_id Hnd Hin). lia.
  - intros page q Hq. unfold page_rows, paginate in Hq.
    cbn [items questions] in Hq.
    apply slice_incl, filter_In in Hq as [_ Hq].
    now apply negb_true_iff, Z.eqb_neq in Hq.
Qed.

Lemma delete_question_then_list_witness :
  field
    (fst (serve (fun _ => "")
            (get_questions Question_format Category_format 1)
            (snd (serve (fun _ => "")
                    (delete_question (fun _ _ => None) 1) test_store))))
    "total_questions" = JInt 1.
Proof.
  apply (delete_question_then_list (fun _ _ => None) Question_format
           Category_format (fun _ => "") test_store 1).
  - repeat constructor; simpl; intuition discriminate.
  - reflexivity.
Defined.

Lemma delete_question_no_fault df descr st x :
  (forall q s, df q s = None) ->
  serve descr (delete_question df x) st
  = (if existsb (fun q => q_id q =? x) (questions st)
     then {| status_code := 204; body := None |}
     else not_found_question x,
     {| categories := categories st;
        questions := filter (fun r => negb (q_id r =? x)) (questions st) |}).
Proof.
  intros Hdf.
  destruct (in_dec Z.eq_dec x (map q_id (questions st))) as [Hin | Hout].
  - destruct (delete_question_present df descr st x Hin)
      as (q & Hq & Hi & Hr).
    rewrite Hr, Hdf. f_equal.
    replace (existsb _ (questions st)) with true; [reflexivity|].
    symmetry. apply existsb_exists. exists q. split; [exact Hq|].
    now apply Z.eqb_eq.
  - rewrite (delete_question_absent df descr st x Hout).
    replace (existsb _ (questions st)) with false.
    + f_equal. destruct st as [cs qs]. cbn [categories questions] in *.
      f_equal. rewrite (filter_ext_in _ (fun _ => true)), filter_true;
        [reflexivity|].
      intros r Hr. apply negb_true_iff, Z.eqb_neq. intros E.
      apply Hout. rewrite <- E. now apply in_map.
    + symmetry. apply not_true_is_false. intros E.
      apply existsb_exists in E as (q & Hq & Ei). apply Z.eqb_eq in Ei.
      apply Hout. rewrite <- Ei. now apply in_map.
Qed.

Lemma filter_comm {A} (f g : A -> bool) (l : list A) :
  filter f (filter g l) = filter g (filter f l).
Proof.
  induction l as [|x l IH]; simpl; [reflexivity|].
  destruct (f x) eqn:F, (g x) eqn:G; simpl; rewrite ?F, ?G, IH; reflexivity.
Qed.

Lemma existsb_filter_other (rows : list Question) (a b : Z) :
  a <> b ->
  existsb (fun q => q_id q =? b)
    (filter (fun r => negb (q_id r =? a)) rows)
  = existsb (fun q => q_id q =? b) rows.
Proof.
  intros Hab. induction rows as [|r rows IH]; simpl; [reflexivity|].
  destruct (q_id r =? a) eqn:Ea; simpl.
  - apply Z.eqb_eq in Ea.
    replace (q_id r =? b) with false; [exact IH|].
    symmetry. apply Z.eqb_neq. lia.
  - now rewrite IH.
Qed.

(** Deletions of different questions commute: when the store reports no
    error, deleting [a] then [b] leaves the same store as deleting [b]
    then [a], and the response to each deletion is the same in either
    order. *)
Theorem delete_question_commute
  (delete_fault : Question -> Store -> option string)
  (descr : Z -> string) (st : Store) (a b : Z) :
  (forall q s, delete_fault q s = None) ->
  a <> b ->
  let del x s := serve descr (delete_question delete_fault x) s in
  snd (del b (snd (del a st))) = snd (del a (snd (del b st)))
  /\ fst (del b (snd (del a st))) = fst (del b st)
  /\ fst (del a (snd (del b st))) = fst (del a st).
Proof.
  intros Hdf Hab del. subst del. cbv beta.
  rewrite !(delete_question_no_fault delete_fault descr _ _ Hdf).
  cbn [fst snd categories questions].
  rewrite (existsb_filter_other _ a b Hab).
  rewrite (existsb_filter_other _ b a (not_eq_sym Hab)).
  split; [|split; reflexivity].
  f_equal. apply filter_comm.
Qed.

Lemma delete_question_commute_witness :
  snd (serve (fun _ => "") (delete_question (fun _ _ => None) 2)
         (snd (serve (fun _ => "") (delete_question (fun _ _ => None) 1)
                 test_store)))
  = snd (serve (fun _ => "") (delete_question (fun _ _ => None) 1)
           (snd (serve (fun _ => "") (delete_question (fun _ _ => None) 2)
                   test_store))).
Proof.
  apply (delete_question_commute (fun _ _ => None) (fun _ => "")
           test_store 1 2).
  - reflexivity.
  - discriminate.
Defined.

(** ** Quiz play: the shape of the body and of the answer *)

(** A body that is not an object, or whose [quiz_category] is absent,
    [null] or not an object, is not refused by the validation: reading
    [quiz_category.type] raises [AttributeError] before any check, and
    the response is that of the 500 handler whatever
    [previous_questions] holds. *)
Theorem play_quizzes_quiz_category_not_object
  (fq : Question -> json) (descr : Z -> string) (st : Store)
  (body : json) (rng : nat) :
  (is_dict body = false
   \/ exists d, body = JDict d
                /\ is_dict (dict_get d "quiz_category") = false) ->
  serve descr (play_quizzes fq body rng) st
  = (get_500_error (descr 500), st).
Proof.
  intros [H | (d & -> & H)].
  - now destruct body.
  - unfold serve, play_quizzes. cbn [attr_get]. rewrite !bind_ret.
    now destruct (dict_get d "quiz_category").
Qed.

Lemma play_quizzes_quiz_category_not_object_witness :
  serve (fun _ => "") (play_quizzes Question_format
    (JDict [("previous_questions", JList [JInt 1]);
            ("quiz_category", JStr "click")]) 0) test_store
  = (get_500_error "", test_store).
Proof.
  apply (play_quizzes_quiz_category_not_object Question_format
           (fun _ => "") test_store
           (JDict [("previous_questions", JList [JInt 1]);
                   ("quiz_category", JStr "click")]) 0).
  right. eexists. split; reflexivity.
Defined.

Ltac quiz_answer_shape :=
  intros _; split; [reflexivity|];
  eexists; split; [reflexivity | lia].

(** Whatever the body and the store, a quiz response with status 200 has
    [success = true] and an integer [questions_per_play] between 0 and
    5. *)
Theorem play_quizzes_answer_shape
  (fq : Question -> json) (descr : Z -> string) (st : Store)
  (body : json) (rng : nat) :
  let r := fst (serve descr (play_quizzes fq body rng) st) in
  status_code r = 200 ->
  field r "success" = JBool true
  /\ exists n, field r "questions_per_play" = JInt n /\ 0 <= n <= 5.
Proof.
  intros r. subst r.
  apply (post_serve descr _
           (fun r => status_code r = 200 ->
                     field r "success" = JBool true
                     /\ exists n, field r "questions_per_play" = JInt n
                                  /\ 0 <= n <= 5)
           (fun e => e = HTTPException 422 \/ internal e)).
  - unfold play_quizzes, all_ids, category_ids.
    repeat first
      [ post_step
      | match goal with
        | |- post (ret _) (fun _ => True) _ => apply post_ret; exact I
        | |- post (ret _) _ _ => apply post_ret; quiz_answer_shape
        end ].
  - intros e [-> | He] H.
    + rewrite status_of_abort in H. discriminate.
    + rewrite (status_of_internal descr e He) in H. discriminate.
Qed.

Lemma play_quizzes_answer_shape_witness :
  field
    (fst (serve (fun _ => "") (play_quizzes Question_format
       (JDict [("previous_questions", JList []);
               ("quiz_category", JDict [("type", JStr "click")])]) 0)
       test_store))
    "success" = JBool true.
Proof.
  apply (play_quizzes_answer_shape Question_format (fun _ => "") test_store
           (JDict [("previous_questions", JList []);
                   ("quiz_category", JDict [("type", JStr "click")])]) 0).
  reflexivity.
Defined.
